(** * mcp-workshop: PDF vectorizer and document-search server

    A shallow embedding of [02-vectorizacion/pdf_vectorizer.py] and
    [03-mcp-server/mcp-server.py], and the properties of the chunker, the
    store adapter, the ingestion pipeline, the ranking query and the tool
    dispatcher that the specification states about them.

    Modelling conventions.
    - A Python [str] is a [string]; every [ascii] is one character (the
      code points below 256), so [len] is [String.length].
    - A Python [int] is a [Z]; slices and [rfind] follow Python for
      negative and out-of-range indices. Lengths, counts and the indices
      of [enumerate] are [nat].
    - A Python [float] is a rational [Q] (no rounding, no NaN).
    - The PDF reader, the sentence-embedding model and pgvector's cosine
      distance are collaborators outside the repository: they are fields
      of the environment, and each call of them may raise.
    - The PostgreSQL table [document_chunks] is a list of rows in insertion
      order; a statement runs against it only through an open connection.
      The database accepts no text that holds a NUL character: an insert
      of such a row raises and commits nothing. *)

From Stdlib Require Import ZArith QArith Lqa Lia Ascii String List.
From stdpp Require Import base decidable option list sorting strings pretty gmap.

Local Open Scope Z_scope.

(** ** Python strings *)

Module Py.

Definition len (s : string) : Z := Z.of_nat (String.length s).

Fixpoint take (n : nat) (s : string) : string :=
  match n, s with
  | S n', String a s' => String a (take n' s')
  | _, _ => EmptyString
  end.

Fixpoint drop (n : nat) (s : string) : string :=
  match n, s with
  | S n', String _ s' => drop n' s'
  | _, _ => s
  end.

(** The position a slice bound denotes: a negative bound counts from the
    end, and both are clamped to [0 .. len]. *)
Definition clamp (n i : Z) : Z :=
  if i <? 0 then Z.max 0 (n + i) else Z.min i n.

(** [slice s i j] is [s[i:j]]. *)
Definition slice (s : string) (i j : Z) : string :=
  let lo := clamp (len s) i in
  let hi := clamp (len s) j in
  take (Z.to_nat (hi - lo)) (drop (Z.to_nat lo) s).

(** [rfind c s] is [s.rfind(c)] for a one-character [c]: the highest index
    at which [c] occurs, or [-1]. *)
Fixpoint rfind (c : ascii) (s : string) : Z :=
  match s with
  | EmptyString => -1
  | String a s' =>
      let r := rfind c s' in
      if 0 <=? r then r + 1
      else if Ascii.eqb a c then 0 else -1
  end.

(** [str.isspace] on the code points below 256. *)
Definition isspace (a : ascii) : bool :=
  let n := N_of_ascii a in
  ((9 <=? n) && (n <=? 13) || (28 <=? n) && (n <=? 32)
   || (n =? 133) || (n =? 160))%N.

Fixpoint lstrip (s : string) : string :=
  match s with
  | EmptyString => EmptyString
  | String a s' => if isspace a then lstrip s' else s
  end.

Fixpoint rstrip (s : string) : string :=
  match s with
  | EmptyString => EmptyString
  | String a s' =>
      match rstrip s' with
      | EmptyString => if isspace a then EmptyString else String a EmptyString
      | r => String a r
      end
  end.

(** [strip s] is [s.strip()]. *)
Definition strip (s : string) : string := rstrip (lstrip s).

(** Truth value of a string: [bool(s)]. *)
Definition truthy (s : string) : bool :=
  match s with EmptyString => false | _ => true end.

(** [s.replace(c, '')] for a one-character [c]. *)
Fixpoint remove_char (c : ascii) (s : string) : string :=
  match s with
  | EmptyString => EmptyString
  | String a s' =>
      if Ascii.eqb a c then remove_char c s' else String a (remove_char c s')
  end.

(** [''.join(l)]. *)
Definition join (l : list string) : string :=
  fold_right String.append EmptyString l.

(** [c * n]: the string of [n] copies of [c]. *)
Fixpoint replicate_char (n : nat) (c : ascii) : string :=
  match n with
  | O => EmptyString
  | S n' => String c (replicate_char n' c)
  end.

End Py.

(** ** The chunker of [PDFVectorizer] *)

Module Chunker.

(** The two attributes of [PDFVectorizer] that [chunk_text] reads. *)
Record config := Config { chunk_size : Z; chunk_overlap : Z }.

(** The values [__init__] assigns. *)
Definition default : config := Config 500 50.

Definition space : ascii := " "%char.

(** The window of one iteration, before it is cut at a space. *)
Definition window (self : config) (text : string) (start : Z) : string :=
  Py.slice text start (start + chunk_size self).

(** The test of the two nested [if]s: the window stops before the end of
    the text and its last space lies beyond the overlap. *)
Definition truncated (self : config) (text : string) (start : Z) : bool :=
  (start + chunk_size self <? Py.len text)
  && (chunk_overlap self <? Py.rfind space (window self text start)).

(** One iteration of the [while] loop: from the cursor [start], the chunk
    that is appended (already stripped) and the next cursor. *)
Definition chunk_step (self : config) (text : string) (start : Z)
  : string * Z :=
  let text_length := Py.len text in
  let end_ := start + chunk_size self in
  let chunk := Py.slice text start end_ in
  let '(chunk, end_) :=
    if end_ <? text_length then
      let last_space := Py.rfind space chunk in
      if chunk_overlap self <? last_space
      then (Py.slice chunk 0 last_space, start + last_space)
      else (chunk, end_)
    else (chunk, end_) in
  (Py.strip chunk, end_ - chunk_overlap self).

(** The [while] loop. Each iteration uses one unit of [fuel]; [None] is
    a loop still running when the fuel is spent. *)
Fixpoint chunk_loop (fuel : nat) (self : config) (text : string)
    (start : Z) (chunks : list string) : option (list string) :=
  if start <? Py.len text then
    match fuel with
    | O => None
    | S fuel' =>
        let '(chunk, start') := chunk_step self text start in
        chunk_loop fuel' self text start' (chunks ++ [chunk])
    end
  else Some chunks.

(** [chunk_text]: the loop from cursor 0, then the empty chunks are
    filtered out. *)
Definition chunk_text (fuel : nat) (self : config) (text : string)
  : option (list string) :=
  match chunk_loop fuel self text 0 [] with
  | Some chunks => Some (List.filter Py.truthy chunks)
  | None => None
  end.

End Chunker.

(** ** Effects: exceptions, the database, the output *)

Module Eff.

(** A Python exception, by its message [str(e)]. *)
Inductive exn := Exception (msg : string).

Definition str (e : exn) : string := match e with Exception m => m end.

(** An embedding vector. *)
Definition vector := list Q.

(** A row of the table [document_chunks]. *)
Record row := Row {
  document_name : string;
  chunk_text : string;
  chunk_index : nat;
  embedding : vector;
  metadata : list (string * string)
}.

(** What a run does to the outside, in order. *)
Inductive event :=
| Print (line : string)
| LoadModel
| Encode (text : string)
| EncodeBatch (texts : list string)
| Connect
| Insert (rows : list row)
| Select (statement : string).

(** The collaborators the two programs import. A call that can fail
    yields [inl] of the exception it raises. *)
Record env := Env {
  (** [PdfReader(path).pages], each through [extract_text()]. *)
  pdf_pages : string -> exn + list string;
  (** [Path(directory).glob("*.pdf")], as path strings. *)
  glob_pdf : string -> list string;
  (** [SentenceTransformer('all-MiniLM-L6-v2')]: loading the model. *)
  load_model : exn + unit;
  (** [model.encode(texts)] on a list of texts, the empty list included:
      one call, which yields the vectors of the batch or raises. *)
  encode_batch : list string -> exn + list vector;
  (** [embedding_model.encode(query)] on one text. *)
  encode : string -> exn + vector;
  (** pgvector's [<=>]. *)
  cosine_distance : vector -> vector -> Q;
  (** [format(x, ".2%")]. *)
  percent : Q -> string
}.

(** The state outside the program: whether the database accepts
    connections, the committed rows, and the events so far. *)
Record world := World {
  db_up : bool;
  document_chunks : list row;
  trace : list event
}.

(** Two worlds with the same database: reachability and committed rows. *)
Definition same_store (w w' : world) : Prop :=
  db_up w' = db_up w /\ document_chunks w' = document_chunks w.

(** How a computation ends. [OutOfFuel] is a loop that was still running
    when its fuel was spent. *)
Inductive result (A : Type) :=
| Return (a : A)
| Raise (e : exn)
| OutOfFuel.
Arguments Return {A} a.
Arguments Raise {A} e.
Arguments OutOfFuel {A}.

Definition M (A : Type) : Type := world -> result A * world.

Definition ret {A} (a : A) : M A := fun w => (Return a, w).

Definition bind {A B} (m : M A) (k : A -> M B) : M B :=
  fun w =>
    match m w with
    | (Return a, w') => k a w'
    | (Raise e, w') => (Raise e, w')
    | (OutOfFuel, w') => (OutOfFuel, w')
    end.

Definition raise {A} (e : exn) : M A := fun w => (Raise e, w).

(** [try: m  except Exception as e: h e]. *)
Definition try_except {A} (m : M A) (h : exn -> M A) : M A :=
  fun w =>
    match m w with
    | (Raise e, w') => h e w'
    | r => r
    end.

Definition emit (ev : event) : M unit :=
  fun w => (Return tt, World (db_up w) (document_chunks w) (trace w ++ [ev])).

Definition print (line : string) : M unit := emit (Print line).

(** A call of a collaborator that may raise. *)
Definition call {A} (r : exn + A) : M A :=
  match r with inl e => raise e | inr a => ret a end.

(** A loop that needs more fuel than it was given. *)
Definition run_fueled {A} (r : option A) : M A :=
  fun w => match r with Some a => (Return a, w) | None => (OutOfFuel, w) end.

(** [psycopg2.connect]: raises when the database is unreachable. *)
Definition connect : M unit :=
  bind (emit Connect) (fun _ w =>
    if db_up w then (Return tt, w)
    else (Raise (Exception "could not connect to server"), w)).

(** The text holds a NUL character. *)
Definition holds_nul (s : string) : bool :=
  existsb (Ascii.eqb "000"%char) (list_ascii_of_string s).

(** A row the database does not accept: one of its two texts holds a NUL
    character. *)
Definition rejected (r : row) : bool :=
  holds_nul (document_name r) || holds_nul (chunk_text r).

(** [execute_values] of the [INSERT] followed by [commit]. When a row is
    not accepted the call raises before the commit, and no row of the call
    becomes visible; otherwise the rows become visible together, after
    those already there. The event records the call, also when there is no
    row to send. *)
Definition insert_rows (rows : list row) : M unit :=
  bind (emit (Insert rows)) (fun _ w =>
    if existsb rejected rows then
      (Raise (Exception "A string literal cannot contain NUL (0x00) characters."), w)
    else
      (Return tt, World (db_up w) (document_chunks w ++ rows) (trace w))).

(** [execute] of a [SELECT] followed by [fetchall]. *)
Definition select {A} (statement : string) (q : list row -> A) : M A :=
  bind (emit (Select statement)) (fun _ w => (Return (q (document_chunks w)), w)).

(** [for x in l: body x]. *)
Fixpoint for_each {A} (l : list A) (body : A -> M unit) : M unit :=
  match l with
  | [] => ret tt
  | x :: l' => bind (body x) (fun _ => for_each l' body)
  end.

(** Encoding a batch: one call of the model on the whole list, also when
    the list is empty. *)
Definition encode_all (E : env) (texts : list string) : M (list vector) :=
  bind (emit (EncodeBatch texts)) (fun _ => call (encode_batch E texts)).

End Eff.

Notation "'let*' x ':=' m 'in' k" := (Eff.bind m (fun x => k))
  (at level 10, x name, m at level 100, k at level 200).
Notation "'do*' m 'in' k" := (Eff.bind m (fun _ => k))
  (at level 10, m at level 100, k at level 200).

(** ** [pdf_vectorizer.py]: the ingestion pipeline *)

Module Vectorizer.

Import Eff.

Definition nl : string := String "010"%char EmptyString.
Definition nul : ascii := "000"%char.

(** [Path(p).name] for a path that does not end in a separator. *)
Definition path_name (p : string) : string :=
  Py.slice p (Py.rfind "/"%char p + 1) (Py.len p).

(** The text the [try] block builds from the pages: each page followed
    by a newline, then without the NUL characters. *)
Definition page_text (pages : list string) : string :=
  Py.remove_char nul (Py.join (List.map (fun page => page ++ nl)%string pages)).

Definition extract_text_from_pdf (E : env) (pdf_path : string) : M string :=
  try_except
    (let* pages := call (pdf_pages E pdf_path) in
     ret (page_text pages))
    (fun e =>
       do* print ("Error al leer PDF " ++ pdf_path ++ ": " ++ str e)%string in
       ret EmptyString).

Definition generate_embeddings (E : env) (texts : list string)
  : M (list vector) :=
  encode_all E texts.

(** The rows [store_chunks] builds: one per pair of
    [zip(chunks, embeddings)], numbered by [enumerate]. *)
Definition values (document_name : string) (chunks : list string)
    (embeddings : list vector) : list row :=
  imap (fun idx '(chunk, embedding) =>
          Row document_name chunk idx embedding [])
       (zip chunks embeddings).

Definition store_chunks (document_name : string) (chunks : list string)
    (embeddings : list vector) : M unit :=
  do* connect in
  do* insert_rows (values document_name chunks embeddings) in
  print ("✓ Almacenados " ++ pretty (length chunks) ++ " chunks para '"
         ++ document_name ++ "'")%string.

Definition process_pdf (E : env) (fuel : nat) (self : Chunker.config)
    (pdf_path : string) : M unit :=
  let document_name := path_name pdf_path in
  do* print (nl ++ "Procesando: " ++ document_name)%string in
  do* print "  Extrayendo texto..." in
  let* text := extract_text_from_pdf E pdf_path in
  if negb (Py.truthy text) then
    print "  ✗ No se pudo extraer texto del PDF"
  else
    do* print ("  Texto extraído: " ++ pretty (String.length text)
               ++ " caracteres")%string in
    do* print "  Creando chunks..." in
    let* chunks := run_fueled (Chunker.chunk_text fuel self text) in
    do* print ("  Creados " ++ pretty (length chunks) ++ " chunks")%string in
    do* print "  Generando embeddings..." in
    let* embeddings := generate_embeddings E chunks in
    do* print "  Almacenando en base de datos..." in
    store_chunks document_name chunks embeddings.

(** The two lines [process_directory] prints around the loop. *)
Definition found_line (pdf_files : list string) : string :=
  ("Encontrados " ++ pretty (length pdf_files) ++ " archivos PDF")%string.
Definition completed_line (pdf_files : list string) : string :=
  (nl ++ "✓ Procesamiento completado: " ++ pretty (length pdf_files)
   ++ " documentos")%string.

Definition process_directory (E : env) (fuel : nat) (self : Chunker.config)
    (directory_path : string) : M unit :=
  let pdf_files := glob_pdf E directory_path in
  match pdf_files with
  | [] =>
      print ("No se encontraron archivos PDF en " ++ directory_path)%string
  | _ =>
      do* print (found_line pdf_files) in
      do* for_each pdf_files (process_pdf E fuel self) in
      print (completed_line pdf_files)
  end.

End Vectorizer.

(** ** [mcp-server.py]: search, catalog and tool dispatch *)

Module Server.

Import Eff.

(** One formatted search result: the dict with the keys ['document'],
    ['text'] and ['similarity']. *)
Record hit := Hit { document : string; text : string; similarity : Q }.

(** The column [1 - (embedding <=> q)] of the search statement. *)
Definition similarity_to (E : env) (q : vector) (r : row) : Q :=
  1 - cosine_distance E (embedding r) q.

(** [ORDER BY embedding <=> q]: ascending distance. *)
Definition closer (E : env) (q : vector) (r1 r2 : row) : Prop :=
  (cosine_distance E (embedding r1) q <= cosine_distance E (embedding r2) q)%Q.

#[global] Instance closer_dec E q : RelDecision (closer E q).
Proof.
  intros r1 r2. unfold closer.
  destruct (Qlt_le_dec (cosine_distance E (embedding r2) q)
                       (cosine_distance E (embedding r1) q)) as [H|H].
  - right. apply Qlt_not_le. exact H.
  - left. exact H.
Defined.

(** [WHERE 1 - (embedding <=> q) > threshold]. *)
Definition above (E : env) (q : vector) (threshold : Q) (r : row) : bool :=
  if Qlt_le_dec threshold (similarity_to E q r) then true else false.

Definition search_query : string :=
  "SELECT document_name, chunk_text, 1 - (embedding <=> %s::vector) as similarity FROM document_chunks WHERE 1 - (embedding <=> %s::vector) > %s ORDER BY embedding <=> %s::vector LIMIT %s".

(** The rows the [WHERE], [ORDER BY] and [LIMIT] clauses keep, in order. *)
Definition ranked (E : env) (q : vector) (threshold : Q) (top_k : Z)
    (table : list row) : list row :=
  take (Z.to_nat top_k)
    (merge_sort (closer E q) (List.filter (above E q threshold) table)).

(** The rows the search statement returns, as the triples of its
    [SELECT] list. *)
Definition search_rows (E : env) (q : vector) (threshold : Q) (top_k : Z)
    (table : list row) : list (string * string * Q) :=
  List.map (fun r => (document_name r, chunk_text r, similarity_to E q r))
    (ranked E q threshold top_k table).

(** The formatted hit of a row: the loop body that builds
    [formatted_results]. *)
Definition hit_of (E : env) (q : vector) (r : row) : hit :=
  Hit (document_name r) (chunk_text r) (similarity_to E q r).

Definition search_documents (E : env) (query : string) (top_k : Z)
    (threshold : Q) : M (list hit) :=
  let* query_embedding :=
    (do* emit (Encode query) in call (encode E query)) in
  do* connect in
  let* results :=
    (if top_k <? 0 then
       do* emit (Select search_query) in
       raise (Exception "LIMIT must not be negative")
     else select search_query (search_rows E query_embedding threshold top_k)) in
  ret (List.map (fun '(doc_name, text, similarity) =>
                   Hit doc_name text similarity) results).

Definition list_query : string :=
  "SELECT document_name, COUNT(*) as chunk_count FROM document_chunks GROUP BY document_name ORDER BY document_name".

(** [COUNT( * )] of the group of [name]. *)
Definition chunk_count (table : list row) (name : string) : nat :=
  length (List.filter (fun r => String.eqb (document_name r) name) table).

(** The rows of the catalog statement: one per distinct document name, in
    the order of the names, with the size of its group. *)
Definition catalog_rows (table : list row) : list (string * nat) :=
  List.map (fun name => (name, chunk_count table name))
    (merge_sort String.le (remove_dups (List.map document_name table))).

(** The result list of [list_documents]; the dict with the keys
    ['document'] and ['chunks'] is the pair of its two values. *)
Definition list_documents : M (list (string * nat)) :=
  do* connect in
  let* results := select list_query catalog_rows in
  ret (List.map (fun '(doc, count) => (doc, count)) results).

(** A JSON value of the [arguments] dict. *)
#[warnings="-register-all"]
Inductive value :=
| VNone
| VBool (b : bool)
| VInt (z : Z)
| VFloat (x : Q)
| VStr (s : string)
| VList (l : list value)
| VDict (l : list (string * value)).

(** Python's truth value. *)
Definition truthy (v : value) : bool :=
  match v with
  | VNone => false
  | VBool b => b
  | VInt z => negb (z =? 0)
  | VFloat x => negb (Qeq_bool x 0)
  | VStr s => Py.truthy s
  | VList l => match l with [] => false | _ => true end
  | VDict l => match l with [] => false | _ => true end
  end.

(** [arguments.get(key)] and [arguments.get(key, default)]. *)
Definition get (arguments : gmap string value) (key : string) : value :=
  default VNone (arguments !! key).
Definition get_or (arguments : gmap string value) (key : string)
    (d : value) : value :=
  default d (arguments !! key).

Record TextContent := mkTextContent { type : string; text_ : string }.

(** The arguments of the declared schema, read from their JSON values: a
    string, an integer, a number. A value of another type is outside the
    schema; the call it is passed to raises. *)
Definition as_str (v : value) : exn + string :=
  match v with VStr s => inr s | _ => inl (Exception "TypeError") end.
Definition as_int (v : value) : exn + Z :=
  match v with VInt z => inr z | _ => inl (Exception "TypeError") end.
Definition as_number (v : value) : exn + Q :=
  match v with
  | VFloat x => inr x
  | VInt z => inr (inject_Z z)
  | _ => inl (Exception "TypeError")
  end.

(** The listing of the hits, built by the [for] loop over
    [enumerate(results, 1)]. *)
Fixpoint results_text (E : env) (idx : nat) (results : list hit) : string :=
  match results with
  | [] => EmptyString
  | r :: rest =>
      ("--- Resultado " ++ pretty idx ++ " (Similitud: "
         ++ percent E (similarity r) ++ ") ---" ++ Vectorizer.nl
       ++ "Documento: " ++ document r ++ Vectorizer.nl
       ++ "Contenido: " ++ text r ++ Vectorizer.nl ++ Vectorizer.nl
       ++ results_text E (S idx) rest)%string
  end.

Fixpoint documents_text (documents : list (string * nat)) : string :=
  match documents with
  | [] => EmptyString
  | (doc, chunks) :: rest =>
      ("• " ++ doc ++ " (" ++ pretty chunks ++ " fragmentos)" ++ Vectorizer.nl
       ++ documents_text rest)%string
  end.

Definition missing_query : string :=
  "Error: Se requiere el parámetro 'query'".

Definition call_tool (E : env) (name : string)
    (arguments : gmap string value) : M (list TextContent) :=
  if String.eqb name "search_documents" then
    let query := get arguments "query" in
    let top_k := get_or arguments "top_k" (VInt 5) in
    let threshold := get_or arguments "threshold" (VFloat (3 # 10)) in
    if negb (truthy query) then
      ret [mkTextContent "text" missing_query]
    else
      try_except
        (let* q := call (as_str query) in
         let* k := call (as_int top_k) in
         let* t := call (as_number threshold) in
         let* results := search_documents E q k t in
         let response :=
           match results with
           | [] => "No se encontraron documentos relevantes para la consulta."
           | _ =>
               ("Se encontraron " ++ pretty (length results)
                ++ " resultados relevantes:" ++ Vectorizer.nl ++ Vectorizer.nl
                ++ results_text E 1 results)%string
           end in
         ret [mkTextContent "text" response])
        (fun e =>
           ret [mkTextContent "text"
                  ("Error al buscar documentos: " ++ str e)%string])
  else if String.eqb name "list_documents" then
    try_except
      (let* documents := list_documents in
       let response :=
         match documents with
         | [] => "No hay documentos indexados en la base de datos."
         | _ =>
             ("Documentos indexados (" ++ pretty (length documents) ++ "):"
              ++ Vectorizer.nl ++ Vectorizer.nl
              ++ documents_text documents)%string
         end in
       ret [mkTextContent "text" response])
      (fun e =>
         ret [mkTextContent "text"
                ("Error al listar documentos: " ++ str e)%string])
  else
    ret [mkTextContent "text" ("Herramienta desconocida: " ++ name)%string].

End Server.

(** ** Sample data for the examples *)

Module Sample.

Import Eff.

(** A text of 100 letters, a space and 500 letters. *)
Definition long_text : string :=
  (Py.replicate_char 100 "a" ++ " " ++ Py.replicate_char 500 "b")%string.

Fixpoint dot (u v : vector) : Q :=
  match u, v with
  | x :: u', y :: v' => (x * y + dot u' v')%Q
  | _, _ => 0%Q
  end.

(** Three one-page PDFs in the directory [docs]; the model fails on the
    text of the second one. In the directory [inbox], a file that cannot
    be read and a one-page PDF. The vectors are unit vectors, for which the
    cosine distance is one minus the dot product. *)
Definition E : env := {|
  pdf_pages p :=
    if String.eqb p "docs/a.pdf" then inr ["alpha"]
    else if String.eqb p "docs/b.pdf" then inr ["beta"]
    else if String.eqb p "docs/c.pdf" then inr ["gamma"]
    else if String.eqb p "inbox/d.pdf" then inr ["delta"]
    else inl (Exception "file not found");
  glob_pdf d :=
    if String.eqb d "docs" then ["docs/a.pdf"; "docs/b.pdf"; "docs/c.pdf"]
    else if String.eqb d "inbox" then ["inbox/broken.pdf"; "inbox/d.pdf"]
    else [];
  load_model := inr tt;
  encode_batch texts :=
    if existsb (String.eqb "beta") texts then inl (Exception "model failure")
    else inr (List.map (fun t => if String.eqb t "gamma" then [0; 1]%Q
                                 else [1; 0]%Q) texts);
  encode t :=
    if String.eqb t "beta" then inl (Exception "model failure")
    else if String.eqb t "gamma" then inr [0; 1]%Q
    else inr [1; 0]%Q;
  cosine_distance u v := (1 - dot u v)%Q;
  percent x := "?"
|}.

(** A reachable database with an empty table. *)
Definition empty_world : world := World true [] [].

(** The world of a run over [docs] once its first document is stored. *)
Definition after_first : world :=
  snd (for_each ["docs/a.pdf"]
         (Vectorizer.process_pdf E 100 Chunker.default)
         (World true [] [Print (Vectorizer.found_line (glob_pdf E "docs"))])).

(** A table of three chunks at similarities 1, 3/5 and 0 to a query that
    is encoded as [1; 0]. *)
Definition table : list row :=
  [ Row "b.pdf" "second" 0 [3 # 5; 4 # 5]%Q [];
    Row "a.pdf" "first" 0 [1; 0]%Q [];
    Row "b.pdf" "third" 1 [0; 1]%Q [] ].

Definition stocked_world : world := World true table [].

End Sample.

(** ** The windows of the chunking loop *)

Module Windows.

(** The value of [end] when an iteration advances the cursor: the cursor
    it computes is [end - overlap]. *)
Definition window_end (self : Chunker.config) (text : string) (start : Z) : Z :=
  snd (Chunker.chunk_step self text start) + Chunker.chunk_overlap self.

(** The ranges [(start, end)] of the iterations of the loop, in order. *)
Fixpoint spans (fuel : nat) (self : Chunker.config) (text : string)
    (start : Z) : list (Z * Z) :=
  if start <? Py.len text then
    match fuel with
    | O => []
    | S fuel' =>
        (start, window_end self text start)
        :: spans fuel' self text (snd (Chunker.chunk_step self text start))
    end
  else [].

(** The chunk of a range: the stripped slice. *)
Definition piece (text : string) (span : Z * Z) : string :=
  Py.strip (Py.slice text (fst span) (snd span)).

End Windows.

(** ** What a run may do to the database *)

Module Obs.

Import Eff.

(** The database of [w'] holds the rows of [w], in place, followed by
    added rows that all satisfy [P]. *)
Definition grows_by (P : row -> Prop) (w w' : world) : Prop :=
  db_up w' = db_up w
  /\ exists added,
       document_chunks w' = document_chunks w ++ added /\ Forall P added.

(** Every run of [m] relates the world it starts in to the world it ends
    in, however it ends. *)
Definition preserves (R : world -> world -> Prop) {A} (m : M A) : Prop :=
  forall w, R w (snd (m w)).

(** The events of a run are all lines of output. *)
Definition only_prints (w w' : world) : Prop :=
  same_store w w'
  /\ exists lines, trace w' = trace w ++ List.map Print lines.

End Obs.

(** ** [pdf_vectorizer.py]: the command line *)

Module Cli.

Import Eff.

(** [s.endswith(suffix)]. *)
Definition endswith (s suffix : string) : bool :=
  (String.length suffix <=? String.length s)%nat
  && String.eqb (Py.drop (String.length s - String.length suffix) s) suffix.

(** [PDFVectorizer(db_config)]: the constructor loads the embedding model,
    which may raise, and sets the chunk size and the overlap. *)
Definition new_vectorizer (E : env) : M Chunker.config :=
  do* emit LoadModel in
  do* call (load_model E) in
  ret Chunker.default.

(** [main], given [sys.argv] and the two tests of [os.path]. The
    vectorizer is built before the arguments are looked at. *)
Definition main (E : env) (isfile isdir : string -> bool) (fuel : nat)
    (argv : list string) : M unit :=
  let* vectorizer := new_vectorizer E in
  match argv with
  | _ :: path :: _ =>
      if isfile path && endswith path ".pdf" then
        Vectorizer.process_pdf E fuel vectorizer path
      else if isdir path then
        Vectorizer.process_directory E fuel vectorizer path
      else
        print "Error: Proporcione una ruta válida a un PDF o directorio"
  | _ =>
      do* print "Uso: python pdf_vectorizer.py <ruta_pdf_o_directorio>" in
      print "Ejemplo: python pdf_vectorizer.py ./documentos/"
  end.

End Cli.

(** ** [mcp-server.py]: the advertised tools *)

Module Tools.

Import Server.

Record Tool := mkTool {
  name : string;
  description : string;
  inputSchema : value
}.

Definition list_tools : list Tool :=
  [ mkTool "search_documents"
      ("Busca información relevante en documentos PDF indexados usando búsqueda semántica. "
       ++ "Devuelve los fragmentos de texto más similares a la consulta junto con el nombre del documento fuente.")%string
      (VDict
         [ ("type", VStr "object");
           ("properties",
            VDict
              [ ("query",
                 VDict [ ("type", VStr "string");
                         ("description",
                          VStr "La pregunta o consulta a buscar en los documentos") ]);
                ("top_k",
                 VDict [ ("type", VStr "integer");
                         ("description",
                          VStr "Número máximo de resultados a devolver (default: 5)");
                         ("default", VInt 5) ]);
                ("threshold",
                 VDict [ ("type", VStr "number");
                         ("description",
                          VStr "Umbral de similitud mínima (0-1, default: 0.3)");
                         ("default", VFloat (3 # 10)) ]) ]);
           ("required", VList [VStr "query"]) ]);
    mkTool "list_documents"
      ("Lista todos los documentos PDF que han sido indexados en la base de datos vectorial. "
       ++ "Muestra el nombre de cada documento y el número de fragmentos (chunks) almacenados.")%string
      (VDict [ ("type", VStr "object"); ("properties", VDict []) ]) ].

(** The value under [key] of a JSON object. *)
Fixpoint field (key : string) (l : list (string * value)) : option value :=
  match l with
  | [] => None
  | (k, v) :: l' => if String.eqb k key then Some v else field key l'
  end.

Definition member (key : string) (v : value) : option value :=
  match v with VDict l => field key l | _ => None end.

(** The default a tool's schema declares for an argument:
    [inputSchema["properties"][key]["default"]]. *)
Definition schema_default (tool : Tool) (key : string) : option value :=
  match member "properties" (inputSchema tool) with
  | Some props =>
      match member key props with
      | Some prop => member "default" prop
      | None => None
      end
  | None => None
  end.

(** The text [call_tool] answers for a name it does not know. *)
Definition unknown_tool (name : string) : string :=
  ("Herramienta desconocida: " ++ name)%string.

End Tools.

(** ** More sample data *)

Module Sample2.

Import Eff.

(** The environment of [Sample], with one more file: a PDF of two pages
    without any text. *)
Definition E : env := {|
  pdf_pages p :=
    if String.eqb p "inbox/blank.pdf" then inr [""; " "]
    else pdf_pages Sample.E p;
  glob_pdf := glob_pdf Sample.E;
  load_model := load_model Sample.E;
  encode_batch := encode_batch Sample.E;
  encode := encode Sample.E;
  cosine_distance := cosine_distance Sample.E;
  percent := percent Sample.E
|}.

(** The table of [Sample] behind a database that refuses connections. *)
Definition down_world : world := World false Sample.table [].

(** A file system with two regular files and the directory [docs]. *)
Definition isfile (p : string) : bool :=
  String.eqb p "docs/c.pdf" || String.eqb p "notes.txt".
Definition isdir (p : string) : bool := String.eqb p "docs".

End Sample2.

(** * Properties *)

(** The string primitives on the inputs the chunker gives them. *)
Example ex_slice : Py.slice "aaaa bbbb cccc" 2 11 = "aa bbbb c".
Proof. reflexivity. Qed.

Example ex_slice_negative : Py.slice "abcdef" (-2) 10 = "ef".
Proof. reflexivity. Qed.

Example ex_rfind : Py.rfind " " "aa bbbb c" = 7 /\ Py.rfind " " "abc" = -1.
Proof. split; reflexivity. Qed.

Example ex_strip :
  Py.strip (String "009" " hola  mundo " ++ Vectorizer.nl) = "hola  mundo".
Proof. reflexivity. Qed.

Example ex_path_name : Vectorizer.path_name "docs/sub/a.pdf" = "a.pdf".
Proof. reflexivity. Qed.

Example ex_chunk_small :
  Chunker.chunk_text 14 (Chunker.Config 9 2) "aaaa bbbb cccc"
  = Some ["aaaa"; "aa bbbb"; "bb cccc"].
Proof. vm_compute. reflexivity. Qed.

(** ** Facts about the string primitives *)

Section PyFacts.

Lemma take_length n s :
  String.length (Py.take n s) = Nat.min n (String.length s).
Proof.
  revert s; induction n as [|n IH]; intros [|a s]; simpl; auto.
Qed.

Lemma drop_length n s :
  String.length (Py.drop n s) = (String.length s - n)%nat.
Proof.
  revert s; induction n as [|n IH]; intros [|a s]; simpl; auto.
Qed.

Lemma take_all n s : (String.length s <= n)%nat -> Py.take n s = s.
Proof.
  revert s; induction n as [|n IH]; intros [|a s]; simpl; intros H;
    try reflexivity; try lia.
  f_equal. apply IH. lia.
Qed.

Lemma len_nonneg s : 0 <= Py.len s.
Proof. unfold Py.len. lia. Qed.

Lemma len_empty s : Py.len s = 0 -> s = EmptyString.
Proof. destruct s; unfold Py.len; simpl; [reflexivity | lia]. Qed.

(** A slice between ordered bounds is never longer than their distance. *)
Lemma slice_len_le s i j : i <= j -> Py.len (Py.slice s i j) <= j - i.
Proof.
  intros Hij. pose proof (len_nonneg s) as Hs.
  unfold Py.slice, Py.len in *. rewrite take_length, drop_length.
  unfold Py.clamp.
  destruct (Z.ltb_spec i 0), (Z.ltb_spec j 0); lia.
Qed.

Lemma slice_len_le_len s i j : Py.len (Py.slice s i j) <= Py.len s.
Proof.
  pose proof (len_nonneg s) as Hs.
  unfold Py.slice, Py.len in *. rewrite take_length, drop_length. lia.
Qed.

(** [s[0:j]] is the whole of [s] once [j] reaches its length. *)
Lemma slice_whole s j : Py.len s <= j -> Py.slice s 0 j = s.
Proof.
  intros Hj. pose proof (len_nonneg s) as Hs.
  unfold Py.slice, Py.clamp.
  replace (0 <? 0) with false by reflexivity.
  destruct (Z.ltb_spec j 0); [lia|].
  replace (Z.min 0 (Py.len s)) with 0 by lia.
  replace (Z.to_nat 0) with O by reflexivity. simpl Py.drop.
  apply take_all. unfold Py.len in *. lia.
Qed.

Lemma rfind_range c s : -1 <= Py.rfind c s < Py.len s.
Proof.
  unfold Py.len. induction s as [|a s IH]; simpl String.length; simpl Py.rfind.
  - lia.
  - destruct (Z.leb_spec 0 (Py.rfind c s)); [lia|].
    destruct (Ascii.eqb a c); lia.
Qed.

Lemma lstrip_length s :
  (String.length (Py.lstrip s) <= String.length s)%nat.
Proof.
  induction s as [|a s IH]; simpl; [lia|].
  destruct (Py.isspace a); simpl; lia.
Qed.

Lemma rstrip_length s :
  (String.length (Py.rstrip s) <= String.length s)%nat.
Proof.
  induction s as [|a s IH]; simpl; [lia|].
  destruct (Py.rstrip s) as [|b r]; [destruct (Py.isspace a)|]; simpl in *; lia.
Qed.

(** Stripping never lengthens a string. *)
Lemma strip_len s : Py.len (Py.strip s) <= Py.len s.
Proof.
  unfold Py.strip, Py.len.
  pose proof (rstrip_length (Py.lstrip s)). pose proof (lstrip_length s). lia.
Qed.

End PyFacts.

(** ** Facts about the chunking loop *)

Section ChunkerFacts.

Import Chunker.

Variable self : config.
Variable text : string.

(** The two shapes of an iteration. *)
Lemma chunk_step_cut start :
  truncated self text start = true ->
  chunk_step self text start
  = (Py.strip (Py.slice (window self text start) 0
                 (Py.rfind space (window self text start))),
     start + Py.rfind space (window self text start) - chunk_overlap self).
Proof.
  unfold truncated, chunk_step, window. intros H.
  apply andb_prop in H as [H1 H2]. rewrite H1, H2. reflexivity.
Qed.

Lemma chunk_step_whole start :
  truncated self text start = false ->
  chunk_step self text start
  = (Py.strip (window self text start),
     start + chunk_size self - chunk_overlap self).
Proof.
  unfold truncated, chunk_step, window. intros H.
  destruct (start + chunk_size self <? Py.len text); [|reflexivity].
  simpl in H. rewrite H. reflexivity.
Qed.

Lemma window_len start :
  0 <= chunk_size self -> Py.len (window self text start) <= chunk_size self.
Proof.
  intros H. unfold window.
  pose proof (slice_len_le text start (start + chunk_size self)). lia.
Qed.

(** A chunk is a stripped piece of its window. *)
Lemma chunk_step_len start :
  0 <= chunk_size self ->
  Py.len (fst (chunk_step self text start)) <= chunk_size self.
Proof.
  intros H. pose proof (window_len start H) as Hw.
  destruct (truncated self text start) eqn:E.
  - rewrite (chunk_step_cut _ E). simpl.
    pose proof (strip_len (Py.slice (window self text start) 0
                            (Py.rfind space (window self text start)))).
    pose proof (slice_len_le_len (window self text start) 0
                  (Py.rfind space (window self text start))). lia.
  - rewrite (chunk_step_whole _ E). simpl.
    pose proof (strip_len (window self text start)). lia.
Qed.

Hypothesis valid : 0 <= chunk_overlap self < chunk_size self.

(** The cursor moves forward in every iteration, and never further than
    [size - overlap]. *)
Lemma chunk_step_moves start :
  start + 1 <= snd (chunk_step self text start)
  <= start + chunk_size self - chunk_overlap self.
Proof.
  destruct (truncated self text start) eqn:E.
  - rewrite (chunk_step_cut _ E). simpl.
    unfold truncated in E. apply andb_prop in E as [_ E].
    apply Z.ltb_lt in E.
    pose proof (rfind_range space (window self text start)).
    pose proof (window_len start). lia.
  - rewrite (chunk_step_whole _ E). simpl. lia.
Qed.

(** The loop ends once the fuel covers the distance to the end of the
    text. *)
Lemma chunk_loop_ends fuel : forall start chunks,
  (Z.to_nat (Py.len text - start) <= fuel)%nat ->
  exists r, chunk_loop fuel self text start chunks = Some r.
Proof.
  induction fuel as [|fuel IH]; intros start chunks Hf; simpl;
    destruct (Z.ltb_spec start (Py.len text)); eauto; try lia.
  pose proof (chunk_step_moves start) as Hm.
  destruct (chunk_step self text start) as [c s']. simpl in Hm.
  apply IH. lia.
Qed.


End ChunkerFacts.

(** What holds of every appended chunk holds of every chunk of the loop's
    result. *)
Lemma chunk_loop_Forall (P : string -> Prop) self text :
  (forall start, P (fst (Chunker.chunk_step self text start))) ->
  forall fuel start chunks r,
    Forall P chunks ->
    Chunker.chunk_loop fuel self text start chunks = Some r ->
    Forall P r.
Proof.
  intros HP. induction fuel as [|fuel IH]; intros start chunks r Hc; simpl;
    destruct (start <? Py.len text); intros Hr; try congruence.
  specialize (HP start).
  destruct (Chunker.chunk_step self text start) as [c s']. simpl in HP.
  eapply IH; [|exact Hr]. apply Forall_app; split; auto.
Qed.

(** ** The chunker: cursor, termination, chunk sizes *)

Example ex_first_step :
  Chunker.chunk_step (Chunker.Config 9 2) "aaaa bbbb cccc" 0 = ("aaaa", 2).
Proof. reflexivity. Qed.

(** C3, as amended. With [0 <= overlap < size], an iteration moves the
    cursor to the end of the window it emitted minus the overlap: to
    [start + size - overlap] when the window is kept whole, and to
    [start + last_space - overlap], which is strictly less, when the window
    was cut at its last space. *)
Theorem chunk_step_next_start (self : Chunker.config) (text : string) (start : Z) :
  0 <= Chunker.chunk_overlap self < Chunker.chunk_size self ->
  snd (Chunker.chunk_step self text start)
  = (if Chunker.truncated self text start
     then start + Py.rfind Chunker.space (Chunker.window self text start)
     else start + Chunker.chunk_size self) - Chunker.chunk_overlap self
  /\ (Chunker.truncated self text start = true ->
      snd (Chunker.chunk_step self text start)
      < start + Chunker.chunk_size self - Chunker.chunk_overlap self).
Proof.
  intros Hv. destruct (Chunker.truncated self text start) eqn:E.
  - rewrite (chunk_step_cut _ _ _ E). simpl. split; [reflexivity|]. intros _.
    pose proof (rfind_range Chunker.space (Chunker.window self text start)).
    pose proof (window_len self text start). lia.
  - rewrite (chunk_step_whole _ _ _ E). simpl. split; [reflexivity|].
    discriminate.
Qed.

Lemma chunk_step_next_start_witness :
  snd (Chunker.chunk_step (Chunker.Config 9 2) "aaaa bbbb cccc" 0)
  = (if Chunker.truncated (Chunker.Config 9 2) "aaaa bbbb cccc" 0
     then 0 + Py.rfind Chunker.space
                (Chunker.window (Chunker.Config 9 2) "aaaa bbbb cccc" 0)
     else 0 + 9) - 2
  /\ (Chunker.truncated (Chunker.Config 9 2) "aaaa bbbb cccc" 0 = true ->
      snd (Chunker.chunk_step (Chunker.Config 9 2) "aaaa bbbb cccc" 0)
      < 0 + 9 - 2).
Proof.
  apply (chunk_step_next_start (Chunker.Config 9 2) "aaaa bbbb cccc" 0).
  simpl. lia.
Defined.

(** C3, as stated, fails on the example of the specification: after the
    first window of ["aaaa bbbb cccc"] is cut to ["aaaa"], the cursor is 2,
    not [0 + 9 - 2 = 7]. *)
Lemma chunk_step_next_start_counterexample :
  Chunker.chunk_step (Chunker.Config 9 2) "aaaa bbbb cccc" 0 = ("aaaa", 2)
  /\ 2 <> 0 + Chunker.chunk_size (Chunker.Config 9 2)
            - Chunker.chunk_overlap (Chunker.Config 9 2).
Proof. split; [reflexivity | discriminate]. Qed.




(** C4, as amended. A non-empty text no longer than [size - overlap]
    (with [0 <= overlap]) is chunked in one iteration: the result is the
    whole stripped text, or no chunk at all when stripping leaves nothing. *)
Theorem chunk_text_short (fuel : nat) (self : Chunker.config) (text : string) :
  text <> EmptyString ->
  0 <= Chunker.chunk_overlap self ->
  Py.len text <= Chunker.chunk_size self - Chunker.chunk_overlap self ->
  (1 <= fuel)%nat ->
  Chunker.chunk_text fuel self text
  = Some (if Py.truthy (Py.strip text) then [Py.strip text] else []).
Proof.
  intros Hne Ho Hlen Hf.
  assert (0 < Py.len text) as Hpos.
  { pose proof (len_nonneg text). destruct (Z.eq_dec (Py.len text) 0) as [E|E];
      [apply len_empty in E; contradiction | lia]. }
  destruct fuel as [|fuel]; [lia|].
  unfold Chunker.chunk_text. simpl Chunker.chunk_loop.
  destruct (Z.ltb_spec 0 (Py.len text)); [|lia].
  assert (Chunker.truncated self text 0 = false) as E.
  { unfold Chunker.truncated. destruct (Z.ltb_spec (0 + Chunker.chunk_size self) (Py.len text)); [lia|reflexivity]. }
  rewrite (chunk_step_whole _ _ _ E).
  unfold Chunker.window. rewrite slice_whole by lia.
  destruct fuel; simpl;
    destruct (Z.ltb_spec (0 + Chunker.chunk_size self - Chunker.chunk_overlap self) (Py.len text));
    try lia; reflexivity.
Qed.

Lemma chunk_text_short_witness :
  Chunker.chunk_text 1 Chunker.default "  hola mundo "
  = Some (if Py.truthy (Py.strip "  hola mundo ")
          then [Py.strip "  hola mundo "] else []).
Proof.
  apply (chunk_text_short 1 Chunker.default "  hola mundo ").
  - discriminate.
  - simpl. lia.
  - vm_compute. discriminate.
  - lia.
Defined.

(** C4, as stated, fails: a text of 460 letters is shorter than the chunk
    size 500, and [chunk_text] returns two chunks, the whole text and its
    last ten letters once more. *)
Lemma chunk_text_short_counterexample :
  Py.len (Py.replicate_char 460 "a") < Chunker.chunk_size Chunker.default
  /\ Chunker.chunk_text 460 Chunker.default (Py.replicate_char 460 "a")
     = Some [Py.replicate_char 460 "a"; Py.replicate_char 10 "a"].
Proof. split; vm_compute; reflexivity. Qed.

(** C9. With [0 <= overlap < size] (the constructor sets 500 and 50),
    [chunk_text] returns, and every chunk it returns has at most [size]
    characters. *)
Theorem chunk_text_chunk_length (fuel : nat) (self : Chunker.config)
    (text : string) :
  0 <= Chunker.chunk_overlap self < Chunker.chunk_size self ->
  (String.length text <= fuel)%nat ->
  exists chunks,
    Chunker.chunk_text fuel self text = Some chunks
    /\ Forall (fun c => Py.len c <= Chunker.chunk_size self) chunks.
Proof.
  intros Hv Hf.
  destruct (chunk_loop_ends self text Hv fuel 0 []) as [raw Hraw].
  { unfold Py.len. lia. }
  exists (List.filter Py.truthy raw). unfold Chunker.chunk_text. rewrite Hraw.
  split; [reflexivity|].
  assert (Forall (fun c => Py.len c <= Chunker.chunk_size self) raw) as Hall.
  { eapply chunk_loop_Forall; [|constructor|exact Hraw].
    intros start. apply chunk_step_len. lia. }
  rewrite List.Forall_forall in *. intros c Hc.
  apply List.filter_In in Hc as [Hc _]. auto.
Qed.

Lemma chunk_text_chunk_length_witness :
  exists chunks,
    Chunker.chunk_text 601 Chunker.default Sample.long_text = Some chunks
    /\ Forall (fun c => Py.len c <= 500) chunks.
Proof.
  apply (chunk_text_chunk_length 601 Chunker.default Sample.long_text).
  - simpl. lia.
  - vm_compute. lia.
Defined.

(** ** The store adapter and the catalog *)

Section StoreFacts.

Import Eff.

(** A run of [store_chunks] against a reachable database that accepts
    the rows. *)
Lemma store_chunks_up name chunks embeddings w :
  db_up w = true ->
  existsb rejected (Vectorizer.values name chunks embeddings) = false ->
  Vectorizer.store_chunks name chunks embeddings w
  = (Return tt,
     World true
       (document_chunks w ++ Vectorizer.values name chunks embeddings)
       (trace w ++ [Connect]
          ++ [Insert (Vectorizer.values name chunks embeddings)]
          ++ [Print ("✓ Almacenados " ++ pretty (length chunks)
                     ++ " chunks para '" ++ name ++ "'")%string])).
Proof.
  intros Hup Hok.
  unfold Vectorizer.store_chunks, connect, insert_rows, print, emit, bind.
  cbn [db_up document_chunks trace]. rewrite Hup, Hok.
  cbn [db_up document_chunks trace].
  rewrite <- !app_assoc. reflexivity.
Qed.

(** A run of [store_chunks] against a reachable database that does not
    accept one of the rows. *)
Lemma store_chunks_rejected name chunks embeddings w :
  db_up w = true ->
  existsb rejected (Vectorizer.values name chunks embeddings) = true ->
  Vectorizer.store_chunks name chunks embeddings w
  = (Raise (Exception "A string literal cannot contain NUL (0x00) characters."),
     World true (document_chunks w)
       (trace w ++ [Connect]
          ++ [Insert (Vectorizer.values name chunks embeddings)])).
Proof.
  intros Hup Hbad.
  unfold Vectorizer.store_chunks, connect, insert_rows, print, emit, bind.
  cbn [db_up document_chunks trace]. rewrite Hup, Hbad.
  cbn [db_up document_chunks trace].
  rewrite <- ?app_assoc. reflexivity.
Qed.

(** A run of [store_chunks] against an unreachable database. *)
Lemma store_chunks_down name chunks embeddings w :
  db_up w = false ->
  Vectorizer.store_chunks name chunks embeddings w
  = (Raise (Exception "could not connect to server"),
     World false (document_chunks w) (trace w ++ [Connect])).
Proof.
  intros Hup. unfold Vectorizer.store_chunks, connect, emit, bind.
  cbn [db_up document_chunks trace]. rewrite Hup. reflexivity.
Qed.

Lemma values_length name chunks embeddings :
  length (Vectorizer.values name chunks embeddings)
  = Nat.min (length chunks) (length embeddings).
Proof. unfold Vectorizer.values. rewrite length_imap, length_zip. reflexivity. Qed.

Lemma values_lookup name chunks embeddings i c e :
  chunks !! i = Some c -> embeddings !! i = Some e ->
  Vectorizer.values name chunks embeddings !! i = Some (Row name c i e []).
Proof.
  intros Hc He. unfold Vectorizer.values.
  rewrite list_lookup_imap, lookup_zip_with, Hc, He. reflexivity.
Qed.

Lemma values_name name chunks embeddings r :
  In r (Vectorizer.values name chunks embeddings) -> document_name r = name.
Proof.
  intros H. apply list_elem_of_In, list_elem_of_lookup in H as [i Hi].
  unfold Vectorizer.values in Hi. rewrite list_lookup_imap in Hi.
  destruct (zip chunks embeddings !! i) as [[c e]|]; simpl in Hi;
    [|discriminate].
  injection Hi as <-. reflexivity.
Qed.

(** The rows [store_chunks] builds carry the document name, the position
    of their pair and an empty metadata map. *)
Lemma values_In name chunks embeddings r :
  In r (Vectorizer.values name chunks embeddings) ->
  exists i c e, r = Row name c i e []
                /\ chunks !! i = Some c /\ embeddings !! i = Some e.
Proof.
  intros H. apply list_elem_of_In, list_elem_of_lookup in H as [i Hi].
  unfold Vectorizer.values in Hi. rewrite list_lookup_imap in Hi.
  destruct (zip chunks embeddings !! i) as [[c e]|] eqn:Ez; simpl in Hi;
    [|discriminate].
  injection Hi as <-. apply lookup_zip_with_Some in Ez as (c' & e' & Hp & Hc & He).
  injection Hp as <- <-. eauto 10.
Qed.

(** Rows built from a name and chunks without NUL are accepted. *)
Lemma values_accepted name chunks embeddings :
  holds_nul name = false ->
  Forall (fun c => holds_nul c = false) chunks ->
  existsb rejected (Vectorizer.values name chunks embeddings) = false.
Proof.
  intros Hn Hc.
  destruct (existsb rejected (Vectorizer.values name chunks embeddings)) eqn:Ex;
    [|reflexivity].
  apply List.existsb_exists in Ex as (r & Hr & Hbad).
  apply values_In in Hr as (i & c & e & -> & Hi & _).
  unfold rejected in Hbad. cbn [document_name chunk_text] in Hbad.
  rewrite Hn in Hbad. cbn [orb] in Hbad.
  rewrite (Forall_lookup_1 _ _ _ _ Hc Hi) in Hbad. discriminate.
Qed.

(** A rejected row comes from a NUL in the name or in a chunk. *)
Lemma values_rejected name chunks embeddings :
  existsb rejected (Vectorizer.values name chunks embeddings) = true ->
  holds_nul name = true \/ Exists (fun c => holds_nul c = true) chunks.
Proof.
  intros Ex. apply List.existsb_exists in Ex as (r & Hr & Hbad).
  apply values_In in Hr as (i & c & e & -> & Hi & _).
  unfold rejected in Hbad. cbn [document_name chunk_text] in Hbad.
  apply orb_prop in Hbad as [H|H]; [left; exact H|].
  right. apply List.Exists_exists. exists c. split; [|exact H].
  apply list_elem_of_In, list_elem_of_lookup. eauto.
Qed.

(** However [store_chunks] ends, it ends in one of three ways. *)
Lemma store_chunks_outcome name chunks embeddings w :
  (db_up w = false
   /\ Vectorizer.store_chunks name chunks embeddings w
      = (Raise (Exception "could not connect to server"),
         World false (document_chunks w) (trace w ++ [Connect])))
  \/ (db_up w = true
      /\ existsb rejected (Vectorizer.values name chunks embeddings) = true
      /\ Vectorizer.store_chunks name chunks embeddings w
         = (Raise (Exception "A string literal cannot contain NUL (0x00) characters."),
            World true (document_chunks w)
              (trace w ++ [Connect]
                 ++ [Insert (Vectorizer.values name chunks embeddings)])))
  \/ (db_up w = true
      /\ existsb rejected (Vectorizer.values name chunks embeddings) = false
      /\ fst (Vectorizer.store_chunks name chunks embeddings w) = Return tt
      /\ document_chunks (snd (Vectorizer.store_chunks name chunks embeddings w))
         = document_chunks w ++ Vectorizer.values name chunks embeddings).
Proof.
  destruct (db_up w) eqn:Hup.
  - destruct (existsb rejected (Vectorizer.values name chunks embeddings)) eqn:Ex.
    + right. left. split; [reflexivity|]. split; [reflexivity|].
      apply store_chunks_rejected; assumption.
    + right. right. split; [reflexivity|]. split; [reflexivity|].
      rewrite (store_chunks_up _ _ _ _ Hup Ex). split; reflexivity.
  - left. split; [reflexivity|]. apply store_chunks_down. exact Hup.
Qed.

Lemma chunk_count_app t1 t2 name :
  Server.chunk_count (t1 ++ t2) name
  = (Server.chunk_count t1 name + Server.chunk_count t2 name)%nat.
Proof. unfold Server.chunk_count. rewrite List.filter_app, length_app. reflexivity. Qed.

Lemma chunk_count_all t name :
  (forall r, In r t -> document_name r = name) ->
  Server.chunk_count t name = length t.
Proof.
  unfold Server.chunk_count. induction t as [|r t IH]; intros H; simpl.
  - reflexivity.
  - rewrite (H r (or_introl eq_refl)), String.eqb_refl. simpl.
    rewrite IH; [reflexivity|]. intros r' Hr'. apply H. right. exact Hr'.
Qed.

Lemma chunk_count_none t name :
  (forall r, In r t -> document_name r <> name) ->
  Server.chunk_count t name = 0%nat.
Proof.
  unfold Server.chunk_count. induction t as [|r t IH]; intros H; simpl.
  - reflexivity.
  - destruct (String.eqb_spec (document_name r) name) as [E|E].
    + exfalso. exact (H r (or_introl eq_refl) E).
    + apply IH. intros r' Hr'. apply H. right. exact Hr'.
Qed.

(** The catalog statement lists exactly the names that occur in the table,
    each with the size of its group. *)
Lemma catalog_rows_In t name k :
  In (name, k) (Server.catalog_rows t)
  <-> (exists r, In r t /\ document_name r = name)
      /\ k = Server.chunk_count t name.
Proof.
  unfold Server.catalog_rows. rewrite List.in_map_iff. split.
  - intros (n & Hn & Hin). injection Hn as -> ->. split; [|reflexivity].
    apply list_elem_of_In in Hin. rewrite merge_sort_Permutation in Hin.
    apply elem_of_remove_dups, list_elem_of_In, List.in_map_iff in Hin.
    destruct Hin as (r & Hr & Hin). eauto.
  - intros [(r & Hin & Hr) ->]. exists name. split; [reflexivity|].
    apply list_elem_of_In. rewrite merge_sort_Permutation.
    apply elem_of_remove_dups, list_elem_of_In, List.in_map_iff. eauto.
Qed.

(** The catalog is in ascending order of the names, without repetition. *)
Lemma catalog_rows_sorted t :
  Sorted String.le (List.map fst (Server.catalog_rows t))
  /\ NoDup (List.map fst (Server.catalog_rows t)).
Proof.
  unfold Server.catalog_rows. rewrite List.map_map. simpl. rewrite List.map_id.
  split.
  - apply Sorted_merge_sort. apply _.
  - rewrite merge_sort_Permutation. apply NoDup_remove_dups.
Qed.

(** A run of [list_documents] against a reachable database. *)
Lemma list_documents_up w :
  db_up w = true ->
  Server.list_documents w
  = (Return (Server.catalog_rows (document_chunks w)),
     World true (document_chunks w)
       (trace w ++ [Connect] ++ [Select Server.list_query])).
Proof.
  intros Hup. unfold Server.list_documents, connect, select, emit, bind, ret.
  cbn [db_up document_chunks trace]. rewrite Hup. cbn [db_up document_chunks trace].
  rewrite <- !app_assoc. f_equal. f_equal.
  generalize (Server.catalog_rows (document_chunks w)) as l.
  induction l as [|[d c] l IH]; simpl; [reflexivity|]. f_equal. exact IH.
Qed.

End StoreFacts.

(** C1, as amended. [store_chunks] has no check of the two lengths and
    raises no validation error: when it raises, it is because the database
    cannot be reached or because a text holds a NUL character, which the
    database does not accept, and then no record is stored. For two lists of
    the same length [N], a reachable database and texts without NUL, it
    returns and stores exactly [N] records after those already there,
    record [i] pairing [chunks[i]] with [embeddings[i]] under the index [i]
    and an empty metadata map. *)
Theorem store_chunks_pairs (name : string) (chunks : list string)
    (embeddings : list Eff.vector) (w : Eff.world) :
  (forall e w',
     Vectorizer.store_chunks name chunks embeddings w = (Eff.Raise e, w') ->
     Eff.document_chunks w' = Eff.document_chunks w
     /\ (Eff.db_up w = false
         \/ Eff.holds_nul name = true
         \/ Exists (fun c => Eff.holds_nul c = true) chunks))
  /\ (Eff.db_up w = true ->
      Eff.holds_nul name = false ->
      Forall (fun c => Eff.holds_nul c = false) chunks ->
      length chunks = length embeddings ->
      exists w' added,
        Vectorizer.store_chunks name chunks embeddings w = (Eff.Return tt, w')
        /\ Eff.document_chunks w' = Eff.document_chunks w ++ added
        /\ length added = length chunks
        /\ (forall i c e,
              chunks !! i = Some c -> embeddings !! i = Some e ->
              added !! i = Some (Eff.Row name c i e []))).
Proof.
  split.
  - intros e w' Hrun.
    destruct (store_chunks_outcome name chunks embeddings w)
      as [[Hdown H]|[(Hup & Hbad & H)|(Hup & Hok & H & _)]].
    + rewrite H in Hrun. injection Hrun as _ <-. split; [reflexivity|].
      left. exact Hdown.
    + rewrite H in Hrun. injection Hrun as _ <-. split; [reflexivity|].
      right. apply values_rejected in Hbad. exact Hbad.
    + rewrite Hrun in H. discriminate.
  - intros Hup Hname Hclean Hlen. eexists. eexists.
    split; [apply store_chunks_up;
            [exact Hup | apply values_accepted; assumption]|].
    split; [reflexivity|]. split; [rewrite values_length; lia|].
    intros i c e. apply values_lookup.
Qed.

Lemma store_chunks_pairs_witness :
  (exists e w',
     Vectorizer.store_chunks "d.pdf" ["a"; String "000" "b"]
       [[1; 0]%Q; [0; 1]%Q] Sample.stocked_world = (Eff.Raise e, w')
     /\ Eff.document_chunks w' = Eff.document_chunks Sample.stocked_world)
  /\ (exists w' added,
        Vectorizer.store_chunks "d.pdf" ["a"; "b"] [[1; 0]%Q; [0; 1]%Q]
          Sample.empty_world = (Eff.Return tt, w')
        /\ Eff.document_chunks w'
           = Eff.document_chunks Sample.empty_world ++ added
        /\ length added = length ["a"; "b"]
        /\ (forall i c e,
              ["a"; "b"] !! i = Some c -> [[1; 0]%Q; [0; 1]%Q] !! i = Some e ->
              added !! i = Some (Eff.Row "d.pdf" c i e []))).
Proof.
  split.
  - destruct (Vectorizer.store_chunks "d.pdf" ["a"; String "000" "b"]
                [[1; 0]%Q; [0; 1]%Q] Sample.stocked_world) as [r w'] eqn:Hrun.
    assert (r = Eff.Raise (Eff.Exception
                  "A string literal cannot contain NUL (0x00) characters."))
      as -> by (apply (f_equal fst) in Hrun; vm_compute in Hrun; congruence).
    eexists. eexists. split; [reflexivity|].
    apply (proj1 (store_chunks_pairs "d.pdf" ["a"; String "000" "b"]
                    [[1; 0]%Q; [0; 1]%Q] Sample.stocked_world) _ _ Hrun).
  - apply (proj2 (store_chunks_pairs "d.pdf" ["a"; "b"] [[1; 0]%Q; [0; 1]%Q]
                    Sample.empty_world)).
    + reflexivity.
    + reflexivity.
    + repeat constructor.
    + reflexivity.
Defined.

(** C1, as stated, fails: storing three chunks with two vectors returns
    normally and commits the first two chunks, each with its vector. *)
Lemma store_chunks_pairs_counterexample :
  length ["a"; "b"; "c"] <> length [[1; 0]%Q; [0; 1]%Q]
  /\ fst (Vectorizer.store_chunks "d.pdf" ["a"; "b"; "c"]
            [[1; 0]%Q; [0; 1]%Q] Sample.empty_world)
     = Eff.Return tt
  /\ Eff.document_chunks
       (snd (Vectorizer.store_chunks "d.pdf" ["a"; "b"; "c"]
               [[1; 0]%Q; [0; 1]%Q] Sample.empty_world))
     = [Eff.Row "d.pdf" "a" 0 [1; 0]%Q []; Eff.Row "d.pdf" "b" 1 [0; 1]%Q []].
Proof. split; [discriminate|]. split; vm_compute; reflexivity. Qed.

(** C7, as amended. For a document name [d] with no record in the table
    and every [N >= 1]: storing, under [d], [N] chunks with [N] vectors,
    the name and the chunks holding no NUL character, and then asking for
    the catalog lists [d] with the count [N], in a catalog whose names
    ascend without repetition. *)
Theorem store_then_list_documents (d : string) (chunks : list string)
    (embeddings : list Eff.vector) (N : nat) (w : Eff.world) :
  Eff.db_up w = true ->
  (forall r, In r (Eff.document_chunks w) -> Eff.document_name r <> d) ->
  Eff.holds_nul d = false ->
  Forall (fun c => Eff.holds_nul c = false) chunks ->
  length chunks = N -> length embeddings = N -> (1 <= N)%nat ->
  exists w1 w2 docs,
    Vectorizer.store_chunks d chunks embeddings w = (Eff.Return tt, w1)
    /\ Server.list_documents w1 = (Eff.Return docs, w2)
    /\ In (d, N) docs
    /\ (forall n, In (d, n) docs -> n = N)
    /\ Sorted String.le (List.map fst docs)
    /\ NoDup (List.map fst docs).
Proof.
  intros Hup Hfresh Hname Hclean Hc He HN.
  eexists. eexists. eexists.
  split; [apply store_chunks_up;
          [exact Hup | apply values_accepted; assumption]|].
  split; [apply list_documents_up; reflexivity|].
  cbn [Eff.document_chunks].
  assert (Server.chunk_count
            (Eff.document_chunks w ++ Vectorizer.values d chunks embeddings) d
          = N) as Hcount.
  { rewrite chunk_count_app, (chunk_count_none _ _ Hfresh).
    rewrite chunk_count_all by apply values_name.
    rewrite values_length. lia. }
  split; [|split; [|apply catalog_rows_sorted]].
  - apply catalog_rows_In. split; [|symmetry; exact Hcount].
    destruct (Vectorizer.values d chunks embeddings) as [|r l] eqn:E.
    + apply (f_equal length) in E. rewrite values_length in E. simpl in E. lia.
    + exists r. split.
      * apply List.in_or_app. right. left. reflexivity.
      * apply (values_name d chunks embeddings). rewrite E. left. reflexivity.
  - intros n Hn. apply catalog_rows_In in Hn as [_ ->]. exact Hcount.
Qed.

Lemma store_then_list_documents_witness :
  exists w1 w2 docs,
    Vectorizer.store_chunks "c.pdf" ["x"; "y"] [[1; 0]%Q; [0; 1]%Q]
      Sample.stocked_world = (Eff.Return tt, w1)
    /\ Server.list_documents w1 = (Eff.Return docs, w2)
    /\ In ("c.pdf", 2%nat) docs
    /\ (forall n, In ("c.pdf", n) docs -> n = 2%nat)
    /\ Sorted String.le (List.map fst docs)
    /\ NoDup (List.map fst docs).
Proof.
  apply (store_then_list_documents "c.pdf" ["x"; "y"] [[1; 0]%Q; [0; 1]%Q]
           2 Sample.stocked_world).
  - reflexivity.
  - simpl. intros r [<-|[<-|[<-|[]]]]; discriminate.
  - reflexivity.
  - repeat constructor.
  - reflexivity.
  - reflexivity.
  - lia.
Defined.

(** C7, as stated, fails at [N = 0]: after storing no chunk and no vector
    under ["d.pdf"], the catalog has no entry for ["d.pdf"], so no count is
    reported for it. *)
Lemma store_then_list_documents_counterexample :
  fst (Vectorizer.store_chunks "d.pdf" [] [] Sample.empty_world)
  = Eff.Return tt
  /\ fst (Server.list_documents
            (snd (Vectorizer.store_chunks "d.pdf" [] [] Sample.empty_world)))
     = Eff.Return []
  /\ ~ In ("d.pdf", 0%nat) [].
Proof. split; [|split]; [vm_compute; reflexivity .. | intros []]. Qed.

(** ** The ranking query *)

Section SearchFacts.

Import Eff.

Variable E : env.

Lemma Sorted_map {A B} (R1 : A -> A -> Prop) (R2 : B -> B -> Prop)
    (f : A -> B) (l : list A) :
  (forall x y, R1 x y -> R2 (f x) (f y)) ->
  Sorted R1 l -> Sorted R2 (List.map f l).
Proof.
  intros Hf Hs. induction Hs as [|x l Hs IH Hhd]; simpl; constructor; auto.
  destruct Hhd; simpl; constructor; auto.
Qed.

Lemma Sorted_firstn {A} (R : A -> A -> Prop) (l : list A) :
  Sorted R l -> forall n, Sorted R (take n l).
Proof.
  intros Hs. induction Hs as [|x l Hs IH Hhd]; intros [|n]; simpl;
    try constructor; auto.
  destruct Hhd; destruct n; simpl; constructor; auto.
Qed.

#[local] Instance closer_total q : Total (Server.closer E q).
Proof.
  intros r1 r2. unfold Server.closer.
  destruct (Qlt_le_dec (cosine_distance E (embedding r2) q)
                       (cosine_distance E (embedding r1) q)) as [H|H].
  - right. apply Qlt_le_weak. exact H.
  - left. exact H.
Qed.

Lemma above_spec q threshold r :
  Server.above E q threshold r = true
  <-> (threshold < Server.similarity_to E q r)%Q.
Proof.
  unfold Server.above.
  destruct (Qlt_le_dec threshold (Server.similarity_to E q r)) as [H|H].
  - tauto.
  - split; [discriminate|]. intros H'. exfalso. exact (Qlt_not_le _ _ H' H).
Qed.

(** A run of [search_documents] against a reachable database, for a query
    the model encodes and a limit that is not negative. *)
Lemma search_documents_up query qv top_k threshold w :
  db_up w = true -> encode E query = inr qv -> 0 <= top_k ->
  Server.search_documents E query top_k threshold w
  = (Return (List.map (Server.hit_of E qv)
               (Server.ranked E qv threshold top_k (document_chunks w))),
     World true (document_chunks w)
       (trace w ++ [Encode query] ++ [Connect] ++ [Select Server.search_query])).
Proof.
  intros Hup Henc Hk.
  unfold Server.search_documents, connect, select, call, emit, bind, ret.
  cbn [db_up document_chunks trace]. rewrite Henc, Hup.
  destruct (Z.ltb_spec top_k 0); [lia|].
  cbn [db_up document_chunks trace]. rewrite <- !app_assoc.
  unfold Server.search_rows. rewrite List.map_map. reflexivity.
Qed.

Lemma ranked_length q threshold top_k t :
  length (Server.ranked E q threshold top_k t)
  = Nat.min (Z.to_nat top_k)
      (length (List.filter (Server.above E q threshold) t)).
Proof.
  unfold Server.ranked. rewrite length_take.
  rewrite (Permutation_length (merge_sort_Permutation _ _)). reflexivity.
Qed.

Lemma ranked_In q threshold top_k t r :
  In r (Server.ranked E q threshold top_k t) ->
  In r t /\ (threshold < Server.similarity_to E q r)%Q.
Proof.
  unfold Server.ranked. intros H. apply list_elem_of_In in H.
  apply elem_of_take in H as (i & H & _). apply list_elem_of_lookup_2 in H.
  rewrite merge_sort_Permutation in H.
  apply list_elem_of_In, List.filter_In in H as [H1 H2].
  split; [exact H1 | apply above_spec; exact H2].
Qed.

Lemma ranked_sorted q threshold top_k t :
  Sorted (Server.closer E q) (Server.ranked E q threshold top_k t).
Proof. unfold Server.ranked. apply Sorted_firstn, Sorted_merge_sort, _. Qed.

(** Raising the threshold keeps fewer rows. *)
Lemma above_length_anti q t1 t2 t :
  (t1 <= t2)%Q ->
  (length (List.filter (Server.above E q t2) t)
   <= length (List.filter (Server.above E q t1) t))%nat.
Proof.
  intros Ht. induction t as [|r t IH]; simpl; [lia|].
  destruct (Server.above E q t2 r) eqn:E2.
  - assert (Server.above E q t1 r = true) as ->.
    { apply above_spec. apply above_spec in E2.
      eapply Qle_lt_trans; eassumption. }
    simpl. lia.
  - destruct (Server.above E q t1 r); simpl; lia.
Qed.

End SearchFacts.

(** C5. For every query the model encodes, every [top_k > 0] and every
    threshold (in particular every one in [0,1]), against a reachable
    database [search_documents] returns a list of at most [top_k] hits, each
    built from a stored record with its similarity [1 - cosine distance] to
    the query vector, each with a similarity strictly above the threshold,
    in descending order of similarity; when no record is above the
    threshold the list is empty, and the call still returns normally. *)
Theorem search_documents_ranked (E : Eff.env) (query : string)
    (qv : Eff.vector) (top_k : Z) (threshold : Q) (w : Eff.world) :
  Eff.db_up w = true -> Eff.encode E query = inr qv -> 0 < top_k ->
  exists hits w',
    Server.search_documents E query top_k threshold w = (Eff.Return hits, w')
    /\ Z.of_nat (length hits) <= top_k
    /\ Forall (fun h => threshold < Server.similarity h)%Q hits
    /\ Sorted (fun a b => Server.similarity b <= Server.similarity a)%Q hits
    /\ Forall (fun h => exists r,
                 In r (Eff.document_chunks w)
                 /\ h = Server.Hit (Eff.document_name r) (Eff.chunk_text r)
                          (1 - Eff.cosine_distance E (Eff.embedding r) qv)) hits
    /\ ((forall r, In r (Eff.document_chunks w) ->
           ~ (threshold < 1 - Eff.cosine_distance E (Eff.embedding r) qv)%Q) ->
        hits = []).
Proof.
  intros Hup Henc Hk. eexists. eexists.
  split; [apply (search_documents_up E query qv); [exact Hup|exact Henc|lia]|].
  split; [|split; [|split; [|split]]].
  - rewrite List.length_map, ranked_length. lia.
  - apply List.Forall_forall. intros h Hh.
    apply List.in_map_iff in Hh as (r & <- & Hr).
    apply ranked_In in Hr as [_ Hr]. exact Hr.
  - apply (Sorted_map (Server.closer E qv)); [|apply ranked_sorted].
    intros x y Hxy. unfold Server.closer in Hxy. simpl.
    unfold Server.similarity_to. lra.
  - apply List.Forall_forall. intros h Hh.
    apply List.in_map_iff in Hh as (r & <- & Hr).
    apply ranked_In in Hr as [Hr _]. exists r. split; [exact Hr|reflexivity].
  - intros Hnone.
    destruct (Server.ranked E qv threshold top_k (Eff.document_chunks w))
      as [|r l] eqn:Er; [reflexivity|].
    exfalso. destruct (ranked_In E qv threshold top_k (Eff.document_chunks w) r)
      as [Hin Habove].
    { rewrite Er. left. reflexivity. }
    exact (Hnone r Hin Habove).
Qed.

Lemma search_documents_ranked_witness :
  exists hits w',
    Server.search_documents Sample.E "query" 5 (3 # 10) Sample.stocked_world
    = (Eff.Return hits, w')
    /\ Z.of_nat (length hits) <= 5
    /\ Forall (fun h => 3 # 10 < Server.similarity h)%Q hits
    /\ Sorted (fun a b => Server.similarity b <= Server.similarity a)%Q hits
    /\ Forall (fun h => exists r,
                 In r (Eff.document_chunks Sample.stocked_world)
                 /\ h = Server.Hit (Eff.document_name r) (Eff.chunk_text r)
                          (1 - Eff.cosine_distance Sample.E (Eff.embedding r)
                                 [1; 0]%Q)) hits
    /\ ((forall r, In r (Eff.document_chunks Sample.stocked_world) ->
           ~ (3 # 10 < 1 - Eff.cosine_distance Sample.E (Eff.embedding r)
                             [1; 0]%Q)%Q) ->
        hits = []).
Proof.
  apply (search_documents_ranked Sample.E "query" [1; 0]%Q 5 (3 # 10)
           Sample.stocked_world).
  - reflexivity.
  - reflexivity.
  - lia.
Defined.

(** C8. For a fixed query and a fixed table, against a reachable database:
    a higher threshold never gives more hits, a higher [top_k] never gives
    fewer, and the number of hits is [top_k] or the number of records above
    the threshold, whichever is smaller. *)
Theorem search_documents_monotone (E : Eff.env) (query : string)
    (qv : Eff.vector) (k1 k2 : Z) (t1 t2 : Q) (w : Eff.world) :
  Eff.db_up w = true -> Eff.encode E query = inr qv ->
  0 <= k1 <= k2 -> (t1 <= t2)%Q ->
  exists base higher_threshold higher_top_k w1 w2 w3,
    Server.search_documents E query k1 t1 w = (Eff.Return base, w1)
    /\ Server.search_documents E query k1 t2 w
       = (Eff.Return higher_threshold, w2)
    /\ Server.search_documents E query k2 t1 w
       = (Eff.Return higher_top_k, w3)
    /\ (length higher_threshold <= length base <= length higher_top_k)%nat
    /\ length base
       = Nat.min (Z.to_nat k1)
           (length (List.filter (Server.above E qv t1) (Eff.document_chunks w)))
    /\ length higher_top_k
       = Nat.min (Z.to_nat k2)
           (length (List.filter (Server.above E qv t1) (Eff.document_chunks w))).
Proof.
  intros Hup Henc Hk Ht. do 6 eexists.
  split; [apply (search_documents_up E query qv); [exact Hup|exact Henc|lia]|].
  split; [apply (search_documents_up E query qv); [exact Hup|exact Henc|lia]|].
  split; [apply (search_documents_up E query qv); [exact Hup|exact Henc|lia]|].
  rewrite !List.length_map, !ranked_length.
  pose proof (above_length_anti E qv t1 t2 (Eff.document_chunks w) Ht).
  repeat split; lia.
Qed.

Lemma search_documents_monotone_witness :
  exists base higher_threshold higher_top_k w1 w2 w3,
    Server.search_documents Sample.E "query" 1 (3 # 10) Sample.stocked_world
    = (Eff.Return base, w1)
    /\ Server.search_documents Sample.E "query" 1 (7 # 10) Sample.stocked_world
       = (Eff.Return higher_threshold, w2)
    /\ Server.search_documents Sample.E "query" 5 (3 # 10) Sample.stocked_world
       = (Eff.Return higher_top_k, w3)
    /\ (length higher_threshold <= length base <= length higher_top_k)%nat
    /\ length base
       = Nat.min (Z.to_nat 1)
           (length (List.filter (Server.above Sample.E [1; 0]%Q (3 # 10))
                      (Eff.document_chunks Sample.stocked_world)))
    /\ length higher_top_k
       = Nat.min (Z.to_nat 5)
           (length (List.filter (Server.above Sample.E [1; 0]%Q (3 # 10))
                      (Eff.document_chunks Sample.stocked_world))).
Proof.
  apply (search_documents_monotone Sample.E "query" [1; 0]%Q 1 5
           (3 # 10) (7 # 10) Sample.stocked_world).
  - reflexivity.
  - reflexivity.
  - lia.
  - vm_compute. discriminate.
Defined.

(** ** The tool dispatcher *)

(** C10. A call of the tool [search_documents] whose [query] argument is
    the empty string does what a call without a [query] argument does: it
    returns the one text ["Error: Se requiere el parámetro 'query'"] and
    leaves the world as it was, so the model is not asked to encode
    anything and no connection to the database is opened. *)
Theorem call_tool_empty_query (E : Eff.env)
    (arguments : gmap string Server.value) (w : Eff.world) :
  Server.call_tool E "search_documents"
    (<["query" := Server.VStr ""]> arguments) w
  = Server.call_tool E "search_documents" (delete "query" arguments) w
  /\ Server.call_tool E "search_documents"
       (<["query" := Server.VStr ""]> arguments) w
     = (Eff.Return [Server.mkTextContent "text" Server.missing_query], w).
Proof.
  assert (forall args,
            Server.truthy (Server.get args "query") = false ->
            Server.call_tool E "search_documents" args w
            = (Eff.Return [Server.mkTextContent "text" Server.missing_query], w))
    as Hfalsy.
  { intros args Hq. unfold Server.call_tool.
    replace (String.eqb "search_documents" "search_documents") with true
      by reflexivity.
    cbv zeta. rewrite Hq. reflexivity. }
  rewrite !Hfalsy; [split; reflexivity | |].
  - unfold Server.get. rewrite lookup_delete_eq. reflexivity.
  - unfold Server.get. rewrite lookup_insert_eq. reflexivity.
Qed.

(** ** The ingestion pipeline *)

Section PipelineFacts.

Import Eff.

Variable E : env.

Lemma same_store_refl w : same_store w w.
Proof. split; reflexivity. Qed.

Lemma same_store_trans w1 w2 w3 :
  same_store w1 w2 -> same_store w2 w3 -> same_store w1 w3.
Proof. intros [H1 H2] [H3 H4]. split; congruence. Qed.

Lemma bind_emit {A} ev (k : unit -> M A) w :
  bind (emit ev) k w
  = k tt (World (db_up w) (document_chunks w) (trace w ++ [ev])).
Proof. reflexivity. Qed.

Lemma bind_Return {A B} (m : M A) (k : A -> M B) w a w' :
  m w = (Return a, w') -> bind m k w = k a w'.
Proof. unfold bind. intros ->. reflexivity. Qed.

Lemma bind_Raise {A B} (m : M A) (k : A -> M B) w e w' :
  m w = (Raise e, w') -> bind m k w = (Raise e, w').
Proof. unfold bind. intros ->. reflexivity. Qed.

(** The run of the batch encoding: one call, whatever the batch. *)
Lemma encode_all_run texts w :
  encode_all E texts w
  = (match encode_batch E texts with
     | inl e => Raise e
     | inr vs => Return vs
     end,
     World (db_up w) (document_chunks w) (trace w ++ [EncodeBatch texts])).
Proof.
  unfold encode_all, bind, emit, call, raise, ret.
  cbn [db_up document_chunks trace].
  destruct (encode_batch E texts); reflexivity.
Qed.

Lemma extract_text_unreadable p e w :
  pdf_pages E p = inl e ->
  Vectorizer.extract_text_from_pdf E p w
  = (Return EmptyString,
     World (db_up w) (document_chunks w)
       (trace w ++ [Print ("Error al leer PDF " ++ p ++ ": " ++ str e)%string])).
Proof.
  intros Hp. unfold Vectorizer.extract_text_from_pdf, try_except, bind, call.
  rewrite Hp. reflexivity.
Qed.

Lemma extract_text_readable p pages w :
  pdf_pages E p = inr pages ->
  Vectorizer.extract_text_from_pdf E p w = (Return (Vectorizer.page_text pages), w).
Proof.
  intros Hp. unfold Vectorizer.extract_text_from_pdf, try_except, bind, call.
  rewrite Hp. reflexivity.
Qed.

Lemma truthy_nonempty s : s <> EmptyString -> Py.truthy s = true.
Proof. destruct s; [congruence | reflexivity]. Qed.

(** A document without text is skipped: [process_pdf] returns normally and
    leaves the database alone. *)
Lemma process_pdf_skips fuel self x w :
  (exists e, pdf_pages E x = inl e)
  \/ (exists pages, pdf_pages E x = inr pages
                    /\ Vectorizer.page_text pages = EmptyString) ->
  exists w', Vectorizer.process_pdf E fuel self x w = (Return tt, w')
             /\ same_store w w'.
Proof.
  intros H. unfold Vectorizer.process_pdf, print. rewrite !bind_emit.
  destruct H as [[e Hp]|(pages & Hp & Ht)].
  - erewrite bind_Return by (apply extract_text_unreadable; exact Hp).
    eexists. split; [reflexivity|]. split; reflexivity.
  - erewrite bind_Return by (apply extract_text_readable; exact Hp).
    rewrite Ht. eexists. split; [reflexivity|]. split; reflexivity.
Qed.

(** A document with text whose embedding or storing fails makes
    [process_pdf] raise, with the database as it was. *)
Lemma process_pdf_raises fuel self x pages chunks w :
  pdf_pages E x = inr pages ->
  Vectorizer.page_text pages <> EmptyString ->
  Chunker.chunk_text fuel self (Vectorizer.page_text pages) = Some chunks ->
  (exists e, encode_batch E chunks = inl e)
  \/ db_up w = false
  \/ (exists vs, encode_batch E chunks = inr vs
                 /\ existsb rejected
                      (Vectorizer.values (Vectorizer.path_name x) chunks vs)
                    = true) ->
  exists e w', Vectorizer.process_pdf E fuel self x w = (Raise e, w')
               /\ same_store w w'.
Proof.
  intros Hp Ht Hc Hfail. unfold Vectorizer.process_pdf, print. rewrite !bind_emit.
  erewrite bind_Return by (apply extract_text_readable; exact Hp).
  rewrite (truthy_nonempty _ Ht). cbn [negb]. rewrite !bind_emit.
  rewrite Hc. unfold run_fueled at 1.
  erewrite bind_Return by reflexivity. rewrite !bind_emit.
  unfold Vectorizer.generate_embeddings.
  match goal with |- context [bind (encode_all E chunks) ?k ?w0] =>
    set (w1 := w0); set (k1 := k) end.
  unfold bind at 1. rewrite encode_all_run.
  destruct (encode_batch E chunks) as [e|vs] eqn:Eb.
  - eexists. eexists. split; [reflexivity|]. split; reflexivity.
  - unfold k1. rewrite bind_emit.
    destruct (db_up w) eqn:Hup.
    + destruct Hfail as [[e He]|[Hdown|(vs' & Hvs & Hbad)]];
        [discriminate..|].
      injection Hvs as <-.
      rewrite store_chunks_rejected
        by first [exact Hbad | exact Hup | reflexivity].
      eexists. eexists. split; [reflexivity|].
      split; cbn [db_up document_chunks]; [symmetry; exact Hup | reflexivity].
    + rewrite store_chunks_down by first [exact Hup | reflexivity].
      eexists. eexists. split; [reflexivity|].
      split; cbn [db_up document_chunks]; [symmetry; exact Hup | reflexivity].
Qed.

(** The loop over a batch, cut at one of its documents. *)
Lemma for_each_app {A} (pre post : list A) (body : A -> M unit) w :
  for_each (pre ++ post) body w
  = bind (for_each pre body) (fun _ => for_each post body) w.
Proof.
  revert w. induction pre as [|x pre IH]; intros w.
  - reflexivity.
  - cbn [for_each app]. unfold bind in *.
    destruct (body x w) as [[[]|e|] w']; [|reflexivity..].
    apply IH.
Qed.

End PipelineFacts.

(** C2, as amended. In a batch, a document whose text cannot be extracted
    (the reader raises, or the text is empty) is skipped and the loop goes
    on with the documents after it. A failure of the embedding computation
    or of the store write (the connection fails, or the insert is refused)
    is not caught: the exception leaves [process_pdf] and
    [process_directory], the documents after it are not processed, and the
    database holds what the documents before it stored. *)
Theorem process_directory_failures (E : Eff.env) (fuel : nat)
    (self : Chunker.config) (dir : string) (pre : list string) (x : string)
    (post : list string) (w w1 : Eff.world) :
  Eff.glob_pdf E dir = pre ++ x :: post ->
  Eff.for_each pre (Vectorizer.process_pdf E fuel self)
    (Eff.World (Eff.db_up w) (Eff.document_chunks w)
       (Eff.trace w ++ [Eff.Print (Vectorizer.found_line (pre ++ x :: post))]))
  = (Eff.Return tt, w1) ->
  ((exists e, Eff.pdf_pages E x = inl e)
   \/ (exists pages, Eff.pdf_pages E x = inr pages
                     /\ Vectorizer.page_text pages = EmptyString) ->
   exists w2,
     Vectorizer.process_pdf E fuel self x w1 = (Eff.Return tt, w2)
     /\ Eff.same_store w1 w2
     /\ Vectorizer.process_directory E fuel self dir w
        = (do* Eff.for_each post (Vectorizer.process_pdf E fuel self) in
           Eff.print (Vectorizer.completed_line (pre ++ x :: post))) w2)
  /\ (forall pages chunks,
        Eff.pdf_pages E x = inr pages ->
        Vectorizer.page_text pages <> EmptyString ->
        Chunker.chunk_text fuel self (Vectorizer.page_text pages) = Some chunks ->
        (exists e, Eff.encode_batch E chunks = inl e)
        \/ Eff.db_up w1 = false
        \/ (exists vs, Eff.encode_batch E chunks = inr vs
                       /\ existsb Eff.rejected
                            (Vectorizer.values (Vectorizer.path_name x) chunks vs)
                          = true) ->
        exists e w2,
          Vectorizer.process_pdf E fuel self x w1 = (Eff.Raise e, w2)
          /\ Eff.same_store w1 w2
          /\ Vectorizer.process_directory E fuel self dir w = (Eff.Raise e, w2)).
Proof.
  intros Hglob Hpre.
  assert (forall r w2,
            Vectorizer.process_pdf E fuel self x w1 = (r, w2) ->
            Vectorizer.process_directory E fuel self dir w
            = match r with
              | Eff.Return _ =>
                  (do* Eff.for_each post (Vectorizer.process_pdf E fuel self) in
                   Eff.print (Vectorizer.completed_line (pre ++ x :: post))) w2
              | Eff.Raise e => (Eff.Raise e, w2)
              | Eff.OutOfFuel => (Eff.OutOfFuel, w2)
              end) as Hdir.
  { intros r w2 Hx. unfold Vectorizer.process_directory. rewrite Hglob.
    destruct (pre ++ x :: post) as [|y l] eqn:El;
      [destruct pre; discriminate|]. rewrite <- El in *.
    unfold Eff.print at 1. rewrite bind_emit.
    unfold Eff.bind at 1. rewrite for_each_app.
    rewrite (bind_Return _ _ _ _ _ Hpre). cbn [Eff.for_each].
    unfold Eff.bind at 1. rewrite Hx. destruct r as [[]|e|]; reflexivity. }
  split.
  - intros Hskip.
    destruct (process_pdf_skips E fuel self x w1 Hskip) as (w2 & Hx & Hs).
    exists w2. split; [exact Hx|]. split; [exact Hs|].
    rewrite (Hdir _ _ Hx). reflexivity.
  - intros pages chunks Hp Ht Hc Hfail.
    destruct (process_pdf_raises E fuel self x pages chunks w1 Hp Ht Hc Hfail)
      as (e & w2 & Hx & Hs).
    exists e, w2. split; [exact Hx|]. split; [exact Hs|].
    rewrite (Hdir _ _ Hx). reflexivity.
Qed.

Lemma process_directory_failures_witness :
  (exists w2,
     Vectorizer.process_pdf Sample.E 100 Chunker.default "inbox/broken.pdf"
       (Eff.World true [] [Eff.Print (Vectorizer.found_line
                                        ["inbox/broken.pdf"; "inbox/d.pdf"])])
     = (Eff.Return tt, w2)
     /\ Vectorizer.process_directory Sample.E 100 Chunker.default "inbox"
          Sample.empty_world
        = (do* Eff.for_each ["inbox/d.pdf"]
                 (Vectorizer.process_pdf Sample.E 100 Chunker.default) in
           Eff.print (Vectorizer.completed_line
                        ["inbox/broken.pdf"; "inbox/d.pdf"])) w2)
  /\ (exists e w2,
        Vectorizer.process_pdf Sample.E 100 Chunker.default "docs/b.pdf"
          Sample.after_first = (Eff.Raise e, w2)
        /\ Eff.same_store Sample.after_first w2
        /\ Vectorizer.process_directory Sample.E 100 Chunker.default "docs"
             Sample.empty_world = (Eff.Raise e, w2)).
Proof.
  split.
  - destruct (process_directory_failures Sample.E 100 Chunker.default "inbox"
                [] "inbox/broken.pdf" ["inbox/d.pdf"] Sample.empty_world
                (Eff.World true []
                   [Eff.Print (Vectorizer.found_line
                                 ["inbox/broken.pdf"; "inbox/d.pdf"])])
                eq_refl eq_refl) as [Hskip _].
    destruct Hskip as (w2 & H1 & _ & H2).
    + left. exists (Eff.Exception "file not found"). reflexivity.
    + exists w2. split; [exact H1 | exact H2].
  - destruct (process_directory_failures Sample.E 100 Chunker.default "docs"
                ["docs/a.pdf"] "docs/b.pdf" ["docs/c.pdf"]
                Sample.empty_world Sample.after_first) as [_ Hfail].
    + reflexivity.
    + vm_compute. reflexivity.
    + apply (Hfail ["beta"] ["beta"]).
      * reflexivity.
      * discriminate.
      * vm_compute. reflexivity.
      * left. exists (Eff.Exception "model failure"). reflexivity.
Defined.

(** C2, as stated, fails: in the batch of the three documents of [docs],
    the model fails on the second one; [process_directory] then raises that
    exception, and the third document, which the model would have encoded,
    is never stored: the table holds the chunk of the first document only. *)
Lemma process_directory_failures_counterexample :
  Eff.glob_pdf Sample.E "docs" = ["docs/a.pdf"; "docs/b.pdf"; "docs/c.pdf"]
  /\ Eff.encode_batch Sample.E ["gamma"] = inr [[0; 1]%Q]
  /\ fst (Vectorizer.process_directory Sample.E 100 Chunker.default "docs"
            Sample.empty_world)
     = Eff.Raise (Eff.Exception "model failure")
  /\ Eff.document_chunks
       (snd (Vectorizer.process_directory Sample.E 100 Chunker.default "docs"
               Sample.empty_world))
     = [Eff.Row "a.pdf" "alpha" 0 [1; 0]%Q []].
Proof. repeat split; vm_compute; reflexivity. Qed.

(** * Further properties of the code *)

(** ** Strings as lists of characters *)

Section StringFacts.

Local Open Scope string_scope.

Lemma append_cons (x : ascii) (a b : string) :
  String x a ++ b = String x (a ++ b).
Proof. reflexivity. Qed.

Lemma append_assoc (a b c : string) : (a ++ b) ++ c = a ++ (b ++ c).
Proof.
  induction a as [|x a IH]; [reflexivity|].
  rewrite !append_cons, IH. reflexivity.
Qed.

Lemma chars_app (a b : string) :
  list_ascii_of_string (a ++ b)
  = (list_ascii_of_string a ++ list_ascii_of_string b)%list.
Proof.
  induction a as [|x a IH]; [reflexivity|].
  rewrite append_cons. simpl. rewrite IH. reflexivity.
Qed.

Lemma chars_length (s : string) :
  length (list_ascii_of_string s) = String.length s.
Proof. induction s as [|x s IH]; simpl; [reflexivity | f_equal; exact IH]. Qed.

Lemma chars_take n s :
  list_ascii_of_string (Py.take n s) = take n (list_ascii_of_string s).
Proof.
  revert s; induction n as [|n IH]; intros [|a s]; simpl; try reflexivity.
  f_equal. apply IH.
Qed.

Lemma chars_drop n s :
  list_ascii_of_string (Py.drop n s) = drop n (list_ascii_of_string s).
Proof.
  revert s; induction n as [|n IH]; intros [|a s]; simpl; try reflexivity.
  apply IH.
Qed.

Lemma take_drop_string n s : Py.take n s ++ Py.drop n s = s.
Proof.
  revert s; induction n as [|n IH]; intros [|a s]; simpl; try reflexivity.
  rewrite append_cons, IH. reflexivity.
Qed.

(** [c] occurs in [t] as a contiguous piece. *)
Lemma substring_trans (a b c : string) :
  (exists pre post, b = pre ++ a ++ post) ->
  (exists pre post, c = pre ++ b ++ post) ->
  exists pre post, c = pre ++ a ++ post.
Proof.
  intros (p1 & q1 & ->) (p2 & q2 & ->).
  exists (p2 ++ p1), (q1 ++ q2). rewrite !append_assoc. reflexivity.
Qed.

Lemma slice_substring s i j :
  exists pre post, s = pre ++ Py.slice s i j ++ post.
Proof.
  unfold Py.slice.
  set (lo := Z.to_nat (Py.clamp (Py.len s) i)).
  set (k := Z.to_nat (Py.clamp (Py.len s) j - Py.clamp (Py.len s) i)).
  exists (Py.take lo s), (Py.drop k (Py.drop lo s)).
  rewrite take_drop_string, take_drop_string. reflexivity.
Qed.

Lemma lstrip_suffix s :
  exists pre, s = pre ++ Py.lstrip s
              /\ Forall (fun c => Py.isspace c = true) (list_ascii_of_string pre).
Proof.
  induction s as [|a s (pre & IH & Hpre)]; simpl.
  - exists "". split; [reflexivity | constructor].
  - destruct (Py.isspace a) eqn:Ea.
    + exists (String a pre). split; [rewrite append_cons; f_equal; exact IH|].
      simpl. constructor; assumption.
    + exists "". split; [reflexivity | constructor].
Qed.

Lemma rstrip_prefix s :
  exists post, s = Py.rstrip s ++ post
               /\ Forall (fun c => Py.isspace c = true) (list_ascii_of_string post).
Proof.
  induction s as [|a s (post & IH & Hpost)]; simpl.
  - exists "". split; [reflexivity | constructor].
  - destruct (Py.rstrip s) as [|b r] eqn:Er.
    + destruct (Py.isspace a) eqn:Ea.
      * exists (String a post).
        split; [change (String a s = String a post); f_equal; exact IH|].
        simpl. constructor; assumption.
      * exists post.
        split; [change (String a s = String a post); f_equal; exact IH|].
        assumption.
    + exists post. split; [rewrite append_cons; f_equal; exact IH | assumption].
Qed.

(** Stripping removes white space at the two ends, and nothing else. *)
Lemma strip_substring s :
  exists pre post,
    s = pre ++ Py.strip s ++ post
    /\ Forall (fun c => Py.isspace c = true) (list_ascii_of_string pre)
    /\ Forall (fun c => Py.isspace c = true) (list_ascii_of_string post).
Proof.
  destruct (lstrip_suffix s) as (pre & H1 & Hpre).
  destruct (rstrip_prefix (Py.lstrip s)) as (post & H2 & Hpost).
  exists pre, post. unfold Py.strip. rewrite <- H2. auto.
Qed.

Lemma lstrip_head s :
  Py.lstrip s = ""
  \/ exists a t, Py.lstrip s = String a t /\ Py.isspace a = false.
Proof.
  induction s as [|a s IH]; simpl; [left; reflexivity|].
  destruct (Py.isspace a) eqn:Ea; [exact IH|]. right. eauto.
Qed.

Lemma rstrip_cons_nospace a s :
  Py.isspace a = false -> Py.rstrip (String a s) = String a (Py.rstrip s).
Proof. intros Ha. simpl. destruct (Py.rstrip s); [rewrite Ha|]; reflexivity. Qed.

Lemma rstrip_idem s : Py.rstrip (Py.rstrip s) = Py.rstrip s.
Proof.
  induction s as [|a s IH]; [reflexivity|]. simpl.
  destruct (Py.rstrip s) as [|b r] eqn:Er.
  - destruct (Py.isspace a) eqn:Ea; simpl; [reflexivity | rewrite Ea; reflexivity].
  - change (Py.rstrip (String a (String b r))) with
      (match Py.rstrip (String b r) with
       | "" => if Py.isspace a then "" else String a ""
       | r' => String a r'
       end).
    rewrite IH. reflexivity.
Qed.

(** A stripped string is its own strip. *)
Lemma strip_idem s : Py.strip (Py.strip s) = Py.strip s.
Proof.
  unfold Py.strip. destruct (lstrip_head s) as [->|(a & t & -> & Ha)].
  - reflexivity.
  - rewrite (rstrip_cons_nospace a t Ha). simpl Py.lstrip. rewrite Ha.
    rewrite <- (rstrip_cons_nospace a t Ha). apply rstrip_idem.
Qed.

(** A string of white space strips to nothing, and only such a string
    does. *)
Lemma strip_empty_iff s :
  Py.strip s = ""
  <-> Forall (fun c => Py.isspace c = true) (list_ascii_of_string s).
Proof.
  split.
  - intros H. destruct (strip_substring s) as (pre & post & Hs & Hpre & Hpost).
    rewrite H in Hs. rewrite Hs. simpl. rewrite chars_app.
    apply Forall_app; split; assumption.
  - unfold Py.strip. induction s as [|a s IH]; simpl; [reflexivity|].
    intros H. inversion H as [|? ? Ha Hs]; subst. rewrite Ha. auto.
Qed.

End StringFacts.

(** ** The chunker: shape of the chunks, coverage of the text *)

Section ChunkShape.

Local Open Scope string_scope.

Variable self : Chunker.config.
Variable text : string.

(** Every chunk an iteration appends is the strip of a piece of the text. *)
Lemma chunk_step_piece start :
  exists u, fst (Chunker.chunk_step self text start) = Py.strip u
            /\ exists pre post, text = pre ++ u ++ post.
Proof.
  destruct (Chunker.truncated self text start) eqn:E.
  - rewrite (chunk_step_cut _ _ _ E). simpl. eexists. split; [reflexivity|].
    eapply substring_trans; [apply slice_substring|].
    unfold Chunker.window. apply slice_substring.
  - rewrite (chunk_step_whole _ _ _ E). simpl. eexists. split; [reflexivity|].
    unfold Chunker.window. apply slice_substring.
Qed.

Lemma chunk_step_shape start :
  Py.strip (fst (Chunker.chunk_step self text start))
  = fst (Chunker.chunk_step self text start)
  /\ exists pre post,
       text = pre ++ fst (Chunker.chunk_step self text start) ++ post.
Proof.
  destruct (chunk_step_piece start) as (u & -> & Hu). split.
  - apply strip_idem.
  - eapply substring_trans; [|exact Hu].
    destruct (strip_substring u) as (pre & post & H & _). eauto.
Qed.

Lemma take_take_string k n s :
  (k <= n)%nat -> Py.take k (Py.take n s) = Py.take k s.
Proof.
  revert n s; induction k as [|k IH]; intros [|n] [|a s] H; simpl;
    try reflexivity; try lia.
  f_equal. apply IH. lia.
Qed.

Lemma slice_prefix x k :
  (0 <= k <= Py.len x)%Z -> Py.slice x 0 k = Py.take (Z.to_nat k) x.
Proof.
  intros Hk. unfold Py.slice, Py.clamp.
  replace (0 <? 0)%Z with false by reflexivity.
  destruct (Z.ltb_spec k 0); [lia|].
  replace (Z.min 0 (Py.len x)) with 0%Z by lia.
  replace (Z.to_nat 0) with O by reflexivity. simpl Py.drop.
  f_equal. lia.
Qed.

Lemma slice_from_nonneg t s e :
  (0 <= s)%Z ->
  Py.slice t s e
  = Py.take (Z.to_nat (Py.clamp (Py.len t) e - Z.min s (Py.len t)))
      (Py.drop (Z.to_nat (Z.min s (Py.len t))) t).
Proof.
  intros Hs. unfold Py.slice.
  replace (Py.clamp (Py.len t) s) with (Z.min s (Py.len t)); [reflexivity|].
  unfold Py.clamp. destruct (Z.ltb_spec s 0); [lia | reflexivity].
Qed.

(** A prefix of a slice is a slice from the same start. *)
Lemma slice_slice_prefix t s e k :
  (0 <= s)%Z -> (0 <= k <= Py.len (Py.slice t s e))%Z ->
  Py.slice (Py.slice t s e) 0 k = Py.slice t s (s + k).
Proof.
  intros Hs Hk. pose proof (len_nonneg t) as Ht.
  rewrite slice_prefix by exact Hk.
  rewrite (slice_from_nonneg t s (s + k) Hs).
  rewrite (slice_from_nonneg t s e Hs) in *.
  unfold Py.len in *. rewrite take_length, drop_length in Hk.
  rewrite take_take_string by lia.
  f_equal. unfold Py.clamp at 1. destruct (Z.ltb_spec (s + k) 0); lia.
Qed.

End ChunkShape.

Section ChunkCoverage.

Variable self : Chunker.config.
Variable text : string.
Hypothesis valid : 0 <= Chunker.chunk_overlap self < Chunker.chunk_size self.

(** The chunk of an iteration is the stripped slice of its range. *)
Lemma chunk_step_span start :
  0 <= start ->
  fst (Chunker.chunk_step self text start)
  = Windows.piece text (start, Windows.window_end self text start).
Proof.
  intros Hs. unfold Windows.piece, Windows.window_end. cbn [fst snd].
  destruct (Chunker.truncated self text start) eqn:E.
  - rewrite (chunk_step_cut _ _ _ E). cbn [fst snd].
    unfold Chunker.truncated in E. apply andb_prop in E as [_ E].
    apply Z.ltb_lt in E.
    pose proof (rfind_range Chunker.space (Chunker.window self text start)).
    unfold Chunker.window in *. rewrite slice_slice_prefix by lia.
    f_equal. f_equal. lia.
  - rewrite (chunk_step_whole _ _ _ E). cbn [fst snd].
    unfold Chunker.window. f_equal. f_equal. lia.
Qed.

(** The loop appends the chunks of its ranges, in order. *)
Lemma chunk_loop_spans fuel : forall start acc r,
  0 <= start ->
  Chunker.chunk_loop fuel self text start acc = Some r ->
  r = acc ++ List.map (Windows.piece text) (Windows.spans fuel self text start).
Proof.
  induction fuel as [|fuel IH]; intros start acc r Hs; simpl;
    destruct (Z.ltb_spec start (Py.len text)); intros Hr; try congruence;
    try (injection Hr as <-; rewrite app_nil_r; reflexivity).
  pose proof (chunk_step_moves self text valid start) as Hm.
  pose proof (chunk_step_span start Hs) as Hp.
  destruct (Chunker.chunk_step self text start) as [c s'] eqn:Ec.
  cbn [fst snd] in *. apply IH in Hr; [|lia].
  rewrite Hr, <- app_assoc. simpl. rewrite Hp. reflexivity.
Qed.

(** The ranges leave no gap: every position from the cursor on lies in
    one of them. *)
Lemma spans_cover fuel : forall start i,
  (Z.to_nat (Py.len text - start) <= fuel)%nat ->
  start <= i < Py.len text ->
  exists s e, In (s, e) (Windows.spans fuel self text start) /\ s <= i < e.
Proof.
  induction fuel as [|fuel IH]; intros start i Hf Hi; simpl;
    destruct (Z.ltb_spec start (Py.len text)); try lia.
  pose proof (chunk_step_moves self text valid start) as Hm.
  destruct (Z.lt_ge_cases i (Windows.window_end self text start)) as [Hlt|Hge].
  - exists start, (Windows.window_end self text start).
    split; [left; reflexivity | lia].
  - destruct (IH (snd (Chunker.chunk_step self text start)) i) as (s & e & Hin & Hse).
    + lia.
    + unfold Windows.window_end in Hge. lia.
    + exists s, e. split; [right; exact Hin | exact Hse].
Qed.

(** The ranges start at or after the cursor. *)
Lemma spans_start fuel : forall start s e,
  In (s, e) (Windows.spans fuel self text start) -> start <= s < Py.len text.
Proof.
  induction fuel as [|fuel IH]; intros start s e; simpl;
    destruct (Z.ltb_spec start (Py.len text)); try (intros []; fail).
  pose proof (chunk_step_moves self text valid start) as Hm.
  intros [Heq|Hin].
  - injection Heq as <- <-. lia.
  - apply IH in Hin. lia.
Qed.

(** The character at a position of a slice's range. *)
Lemma slice_lookup t s e i :
  0 <= s <= i -> i < e -> i < Py.len t ->
  list_ascii_of_string (Py.slice t s e) !! Z.to_nat (i - s)
  = list_ascii_of_string t !! Z.to_nat i.
Proof.
  intros Hs He Hi. rewrite slice_from_nonneg by lia.
  rewrite chars_take, chars_drop.
  unfold Py.clamp. destruct (Z.ltb_spec e 0); [lia|].
  rewrite lookup_take_lt by lia. rewrite lookup_drop. f_equal. lia.
Qed.

End ChunkCoverage.

Lemma filter_truthy_nil l :
  List.filter Py.truthy l = [] <-> Forall (fun c => c = EmptyString) l.
Proof.
  induction l as [|c l IH]; simpl.
  - split; [constructor | reflexivity].
  - destruct c as [|a c]; simpl.
    + rewrite IH. split; [intros H; constructor; auto | intros H; inversion H; auto].
    + split; [discriminate | intros H; inversion H; discriminate].
Qed.

(** X1. With [0 <= overlap < size], [chunk_text] returns, and every chunk
    it returns is non-empty, carries no white space at either end, and is a
    contiguous piece of the text. *)
Theorem chunk_text_chunks_shape (fuel : nat) (self : Chunker.config)
    (text : string) :
  0 <= Chunker.chunk_overlap self < Chunker.chunk_size self ->
  (String.length text <= fuel)%nat ->
  exists chunks,
    Chunker.chunk_text fuel self text = Some chunks
    /\ Forall (fun c => c <> EmptyString
                        /\ Py.strip c = c
                        /\ exists pre post, text = (pre ++ c ++ post)%string)
         chunks.
Proof.
  intros Hv Hf.
  destruct (chunk_loop_ends self text Hv fuel 0 []) as [raw Hraw].
  { unfold Py.len. lia. }
  exists (List.filter Py.truthy raw). unfold Chunker.chunk_text. rewrite Hraw.
  split; [reflexivity|].
  assert (Forall (fun c => Py.strip c = c
                           /\ exists pre post, text = (pre ++ c ++ post)%string)
            raw) as Hall.
  { eapply chunk_loop_Forall; [|constructor|exact Hraw].
    intros start. apply chunk_step_shape. }
  rewrite List.Forall_forall in *. intros c Hc.
  apply List.filter_In in Hc as [Hc Ht]. destruct (Hall c Hc) as [H1 H2].
  split; [|split; assumption]. intros ->. discriminate.
Qed.

Lemma chunk_text_chunks_shape_witness :
  exists chunks,
    Chunker.chunk_text 14 (Chunker.Config 9 2) "aaaa bbbb cccc" = Some chunks
    /\ Forall (fun c => c <> EmptyString
                        /\ Py.strip c = c
                        /\ exists pre post,
                             "aaaa bbbb cccc" = (pre ++ c ++ post)%string)
         chunks.
Proof.
  apply (chunk_text_chunks_shape 14 (Chunker.Config 9 2) "aaaa bbbb cccc").
  - simpl. lia.
  - simpl. lia.
Defined.

(** X2. With [0 <= overlap < size], the loop skips no part of the text:
    its iterations emit the stripped slices [text[s:e]] of ranges [(s, e)]
    such that every position of the text lies in one of them. *)
Theorem chunk_loop_covers_text (fuel : nat) (self : Chunker.config)
    (text : string) :
  0 <= Chunker.chunk_overlap self < Chunker.chunk_size self ->
  (String.length text <= fuel)%nat ->
  exists raw,
    Chunker.chunk_loop fuel self text 0 [] = Some raw
    /\ Chunker.chunk_text fuel self text = Some (List.filter Py.truthy raw)
    /\ raw = List.map (fun span => Py.strip (Py.slice text (fst span) (snd span)))
               (Windows.spans fuel self text 0)
    /\ forall i, 0 <= i < Py.len text ->
         exists s e, In (s, e) (Windows.spans fuel self text 0) /\ s <= i < e.
Proof.
  intros Hv Hf.
  destruct (chunk_loop_ends self text Hv fuel 0 []) as [raw Hraw].
  { unfold Py.len. lia. }
  exists raw. split; [exact Hraw|].
  split; [unfold Chunker.chunk_text; rewrite Hraw; reflexivity|].
  split.
  - apply (chunk_loop_spans self text Hv) in Hraw; [|lia]. exact Hraw.
  - intros i Hi. apply (spans_cover self text Hv); [unfold Py.len; lia | lia].
Qed.

Lemma chunk_loop_covers_text_witness :
  exists raw,
    Chunker.chunk_loop 14 (Chunker.Config 9 2) "aaaa bbbb cccc" 0 [] = Some raw
    /\ Chunker.chunk_text 14 (Chunker.Config 9 2) "aaaa bbbb cccc"
       = Some (List.filter Py.truthy raw)
    /\ raw = List.map
               (fun span => Py.strip (Py.slice "aaaa bbbb cccc" (fst span) (snd span)))
               (Windows.spans 14 (Chunker.Config 9 2) "aaaa bbbb cccc" 0)
    /\ forall i, 0 <= i < Py.len "aaaa bbbb cccc" ->
         exists s e,
           In (s, e) (Windows.spans 14 (Chunker.Config 9 2) "aaaa bbbb cccc" 0)
           /\ s <= i < e.
Proof.
  apply (chunk_loop_covers_text 14 (Chunker.Config 9 2) "aaaa bbbb cccc").
  - simpl. lia.
  - simpl. lia.
Defined.

(** X3. With [0 <= overlap < size], [chunk_text] returns no chunk exactly
    when the text consists of white space only (the empty text
    included). *)
Theorem chunk_text_empty_iff_blank (fuel : nat) (self : Chunker.config)
    (text : string) :
  0 <= Chunker.chunk_overlap self < Chunker.chunk_size self ->
  (String.length text <= fuel)%nat ->
  Chunker.chunk_text fuel self text = Some []
  <-> Forall (fun c => Py.isspace c = true) (list_ascii_of_string text).
Proof.
  intros Hv Hf.
  destruct (chunk_loop_ends self text Hv fuel 0 []) as [raw Hraw].
  { unfold Py.len. lia. }
  unfold Chunker.chunk_text. rewrite Hraw. split.
  - intros H. injection H as H. apply filter_truthy_nil in H.
    pose proof (chunk_loop_spans self text Hv fuel 0 [] raw ltac:(lia) Hraw) as Hsp.
    simpl in Hsp. apply Forall_lookup_2. intros n c Hn.
    assert (n < length (list_ascii_of_string text))%nat as Hlt
      by (apply lookup_lt_is_Some_1; eauto).
    rewrite chars_length in Hlt.
    destruct (spans_cover self text Hv fuel 0 (Z.of_nat n)) as (s & e & Hin & Hse).
    { unfold Py.len. lia. }
    { unfold Py.len. lia. }
    pose proof (spans_start self text Hv fuel 0 s e Hin) as Hs0.
    assert (Windows.piece text (s, e) = EmptyString) as Hpiece.
    { rewrite List.Forall_forall in H. apply H. rewrite Hsp.
      apply List.in_map_iff. exists (s, e). split; [reflexivity | exact Hin]. }
    unfold Windows.piece in Hpiece. cbn [fst snd] in Hpiece.
    apply strip_empty_iff in Hpiece.
    apply (Forall_lookup_1 _ _ (Z.to_nat (Z.of_nat n - s)) c Hpiece).
    rewrite slice_lookup; [|lia|lia|unfold Py.len; lia].
    rewrite Nat2Z.id. exact Hn.
  - intros Hblank. f_equal. apply filter_truthy_nil.
    eapply chunk_loop_Forall; [|constructor|exact Hraw].
    intros start. destruct (chunk_step_piece self text start) as (u & -> & pre & post & Hu).
    apply strip_empty_iff. rewrite Hu, !chars_app in Hblank.
    apply Forall_app in Hblank as [_ Hblank].
    apply Forall_app in Hblank as [Hblank _]. exact Hblank.
Qed.

Lemma chunk_text_empty_iff_blank_witness :
  Chunker.chunk_text 3 Chunker.default (String "009" (" " ++ Vectorizer.nl))
  = Some []
  <-> Forall (fun c => Py.isspace c = true)
        (list_ascii_of_string (String "009" (" " ++ Vectorizer.nl))).
Proof.
  apply (chunk_text_empty_iff_blank 3 Chunker.default
           (String "009" (" " ++ Vectorizer.nl))).
  - simpl. lia.
  - simpl. lia.
Defined.

(** ** What every run keeps of the database *)

Section Preserve.

Import Eff.

Variable R : world -> world -> Prop.
Hypothesis R_refl : forall w, R w w.
Hypothesis R_trans : forall w1 w2 w3, R w1 w2 -> R w2 w3 -> R w1 w3.
Hypothesis R_emit : forall ev w, R w (snd (emit ev w)).

Lemma preserves_ret {A} (a : A) : Obs.preserves R (ret a).
Proof. intros w. apply R_refl. Qed.

Lemma preserves_raise {A} (e : exn) : Obs.preserves R (@raise A e).
Proof. intros w. apply R_refl. Qed.

Lemma preserves_emit ev : Obs.preserves R (emit ev).
Proof. intros w. apply R_emit. Qed.

Lemma preserves_print line : Obs.preserves R (print line).
Proof. apply preserves_emit. Qed.

Lemma preserves_bind {A B} (m : M A) (k : A -> M B) :
  Obs.preserves R m -> (forall a, Obs.preserves R (k a)) ->
  Obs.preserves R (bind m k).
Proof.
  intros Hm Hk w. unfold bind. specialize (Hm w).
  destruct (m w) as [[a|e|] w']; simpl in *; [|exact Hm..].
  eapply R_trans; [exact Hm | apply Hk].
Qed.

Lemma preserves_try_except {A} (m : M A) (h : exn -> M A) :
  Obs.preserves R m -> (forall e, Obs.preserves R (h e)) ->
  Obs.preserves R (try_except m h).
Proof.
  intros Hm Hh w. unfold try_except. specialize (Hm w).
  destruct (m w) as [[a|e|] w']; simpl in *; [exact Hm| |exact Hm].
  eapply R_trans; [exact Hm | apply Hh].
Qed.

Lemma preserves_call {A} (r : exn + A) : Obs.preserves R (call r).
Proof. destruct r; [apply preserves_raise | apply preserves_ret]. Qed.

Lemma preserves_run_fueled {A} (r : option A) : Obs.preserves R (run_fueled r).
Proof. intros w. destruct r; apply R_refl. Qed.

Lemma preserves_connect : Obs.preserves R connect.
Proof.
  apply preserves_bind; [apply preserves_emit|].
  intros _ w. destruct (db_up w); apply R_refl.
Qed.

Lemma preserves_select {A} statement (q : list row -> A) :
  Obs.preserves R (select statement q).
Proof.
  apply preserves_bind; [apply preserves_emit|]. intros _ w. apply R_refl.
Qed.

Lemma preserves_for_each {A} (l : list A) (body : A -> M unit) :
  (forall x, Obs.preserves R (body x)) -> Obs.preserves R (for_each l body).
Proof.
  intros Hb. induction l as [|x l IH]; simpl.
  - apply preserves_ret.
  - apply preserves_bind; [apply Hb | intros _; exact IH].
Qed.

Lemma preserves_encode_all E texts : Obs.preserves R (encode_all E texts).
Proof.
  apply preserves_bind; [apply preserves_emit | intros _; apply preserves_call].
Qed.

Lemma preserves_extract_text E p :
  Obs.preserves R (Vectorizer.extract_text_from_pdf E p).
Proof.
  apply preserves_try_except.
  - apply preserves_bind; [apply preserves_call | intros pages; apply preserves_ret].
  - intros e. apply preserves_bind; [apply preserves_print | intros _; apply preserves_ret].
Qed.

(** The two queries of the server relate the worlds as every event does. *)
Lemma preserves_search_documents E query top_k threshold :
  Obs.preserves R (Server.search_documents E query top_k threshold).
Proof.
  unfold Server.search_documents.
  apply preserves_bind.
  { apply preserves_bind; [apply preserves_emit | intros _; apply preserves_call]. }
  intros qv. apply preserves_bind; [apply preserves_connect|]. intros _.
  apply preserves_bind; [|intros results; apply preserves_ret].
  destruct (top_k <? 0).
  - apply preserves_bind; [apply preserves_emit | intros _; apply preserves_raise].
  - apply preserves_select.
Qed.

Lemma preserves_list_documents : Obs.preserves R Server.list_documents.
Proof.
  unfold Server.list_documents.
  apply preserves_bind; [apply preserves_connect|]. intros _.
  apply preserves_bind; [apply preserves_select | intros r; apply preserves_ret].
Qed.

Lemma preserves_call_tool E name arguments :
  Obs.preserves R (Server.call_tool E name arguments).
Proof.
  unfold Server.call_tool.
  destruct (String.eqb name "search_documents").
  - cbv zeta. destruct (negb _); [apply preserves_ret|].
    apply preserves_try_except; [|intros e; apply preserves_ret].
    apply preserves_bind; [apply preserves_call|]. intros q.
    apply preserves_bind; [apply preserves_call|]. intros k.
    apply preserves_bind; [apply preserves_call|]. intros t.
    apply preserves_bind; [apply preserves_search_documents|]. intros r.
    apply preserves_ret.
  - destruct (String.eqb name "list_documents"); [|apply preserves_ret].
    apply preserves_try_except; [|intros e; apply preserves_ret].
    apply preserves_bind; [apply preserves_list_documents|]. intros r.
    apply preserves_ret.
Qed.

End Preserve.

Section Grows.

Import Eff.

Variable P : row -> Prop.

Lemma grows_refl w : Obs.grows_by P w w.
Proof.
  split; [reflexivity|]. exists []. rewrite app_nil_r.
  split; [reflexivity | constructor].
Qed.

Lemma grows_trans w1 w2 w3 :
  Obs.grows_by P w1 w2 -> Obs.grows_by P w2 w3 -> Obs.grows_by P w1 w3.
Proof.
  intros [H1 (a1 & H2 & Ha1)] [H3 (a2 & H4 & Ha2)]. split; [congruence|].
  exists (a1 ++ a2). rewrite H4, H2, app_assoc.
  split; [reflexivity | apply Forall_app; split; assumption].
Qed.

Lemma grows_emit ev w : Obs.grows_by P w (snd (emit ev w)).
Proof.
  split; [reflexivity|]. exists []. simpl. rewrite app_nil_r.
  split; [reflexivity | constructor].
Qed.

Lemma grows_insert_rows rows :
  Forall P rows -> Obs.preserves (Obs.grows_by P) (insert_rows rows).
Proof.
  intros Hrows w. unfold insert_rows, bind, emit.
  cbn [db_up document_chunks trace]. destruct (existsb rejected rows); cbn [snd].
  - split; [reflexivity|]. exists []. cbn [document_chunks].
    rewrite app_nil_r. split; [reflexivity | constructor].
  - split; [reflexivity|]. exists rows. split; [reflexivity | exact Hrows].
Qed.

Lemma grows_store_chunks name chunks embeddings :
  Forall P (Vectorizer.values name chunks embeddings) ->
  Obs.preserves (Obs.grows_by P) (Vectorizer.store_chunks name chunks embeddings).
Proof.
  intros Hrows. unfold Vectorizer.store_chunks.
  apply (preserves_bind _ grows_trans);
    [apply (preserves_connect _ grows_refl grows_trans grows_emit)|]. intros _.
  apply (preserves_bind _ grows_trans);
    [apply grows_insert_rows; exact Hrows|]. intros _.
  apply (preserves_print _ grows_emit).
Qed.

Lemma grows_process_pdf E fuel self path :
  (forall chunks embeddings,
     Forall P (Vectorizer.values (Vectorizer.path_name path) chunks embeddings)) ->
  Obs.preserves (Obs.grows_by P) (Vectorizer.process_pdf E fuel self path).
Proof.
  intros Hrows. unfold Vectorizer.process_pdf. cbv zeta.
  repeat (apply (preserves_bind _ grows_trans);
          [apply (preserves_print _ grows_emit) | intros _]).
  apply (preserves_bind _ grows_trans);
    [apply (preserves_extract_text _ grows_refl grows_trans grows_emit)|].
  intros text. destruct (negb (Py.truthy text));
    [apply (preserves_print _ grows_emit)|].
  repeat (apply (preserves_bind _ grows_trans);
          [apply (preserves_print _ grows_emit) | intros _]).
  apply (preserves_bind _ grows_trans);
    [apply (preserves_run_fueled _ grows_refl)|]. intros chunks.
  repeat (apply (preserves_bind _ grows_trans);
          [apply (preserves_print _ grows_emit) | intros _]).
  apply (preserves_bind _ grows_trans);
    [apply (preserves_encode_all _ grows_refl grows_trans grows_emit)|].
  intros embeddings.
  apply (preserves_bind _ grows_trans);
    [apply (preserves_print _ grows_emit) | intros _].
  apply grows_store_chunks. apply Hrows.
Qed.

Lemma grows_process_directory E fuel self dir :
  (forall path chunks embeddings,
     In path (glob_pdf E dir) ->
     Forall P (Vectorizer.values (Vectorizer.path_name path) chunks embeddings)) ->
  Obs.preserves (Obs.grows_by P) (Vectorizer.process_directory E fuel self dir).
Proof.
  intros Hrows. unfold Vectorizer.process_directory. cbv zeta.
  destruct (glob_pdf E dir) as [|x l] eqn:Eg;
    [apply (preserves_print _ grows_emit)|].
  apply (preserves_bind _ grows_trans);
    [apply (preserves_print _ grows_emit) | intros _].
  apply (preserves_bind _ grows_trans);
    [|intros _; apply (preserves_print _ grows_emit)].
  generalize (x :: l), Hrows. clear. intros files Hrows.
  induction files as [|p files IH]; simpl.
  - apply (preserves_ret _ grows_refl).
  - apply (preserves_bind _ grows_trans).
    + apply grows_process_pdf. intros chunks embeddings.
      apply Hrows. left. reflexivity.
    + intros _. apply IH. intros path chunks embeddings Hin.
      apply Hrows. right. exact Hin.
Qed.

End Grows.

Lemma same_store_emit ev w : Eff.same_store w (snd (Eff.emit ev w)).
Proof. split; reflexivity. Qed.

(** X4. Ingestion only appends. Whatever [process_pdf] and
    [process_directory] do and however they end (normally, with an
    exception, or still looping), the database stays as reachable as it was,
    the rows it held stay in place, and every row added is named after a
    file that was processed and has an empty metadata map. *)
Theorem ingestion_only_appends (E : Eff.env) (fuel : nat)
    (self : Chunker.config) (path dir : string) (w : Eff.world) :
  Obs.grows_by
    (fun r => Eff.document_name r = Vectorizer.path_name path
              /\ Eff.metadata r = [])
    w (snd (Vectorizer.process_pdf E fuel self path w))
  /\ Obs.grows_by
       (fun r => (exists p, In p (Eff.glob_pdf E dir)
                            /\ Eff.document_name r = Vectorizer.path_name p)
                 /\ Eff.metadata r = [])
       w (snd (Vectorizer.process_directory E fuel self dir w)).
Proof.
  split.
  - apply grows_process_pdf. intros chunks embeddings.
    apply List.Forall_forall. intros r Hr.
    apply values_In in Hr as (i & c & e & -> & _). split; reflexivity.
  - apply grows_process_directory. intros p chunks embeddings Hp.
    apply List.Forall_forall. intros r Hr.
    apply values_In in Hr as (i & c & e & -> & _). split; [|reflexivity].
    exists p. split; [exact Hp | reflexivity].
Qed.

(** ** Text extraction and the path of one document *)

Section ExtractFacts.

Import Eff.

Lemma remove_char_absent c s :
  ~ In c (list_ascii_of_string (Py.remove_char c s)).
Proof.
  induction s as [|a s IH]; simpl; [tauto|].
  destruct (Ascii.eqb_spec a c) as [->|Hne]; [exact IH|].
  simpl. intros [H|H]; [congruence | exact (IH H)].
Qed.

Lemma remove_char_keeps c a s :
  a <> c -> In a (list_ascii_of_string s) ->
  In a (list_ascii_of_string (Py.remove_char c s)).
Proof.
  intros Hne. induction s as [|b s IH]; simpl; [tauto|].
  intros [->|H].
  - destruct (Ascii.eqb_spec a c); [contradiction | left; reflexivity].
  - destruct (Ascii.eqb b c); [auto | right; auto].
Qed.

(** The text of at least one page holds the newline that follows the
    first page. *)
Lemma page_text_nonempty page pages :
  Vectorizer.page_text (page :: pages) <> EmptyString.
Proof.
  assert (In "010"%char
            (list_ascii_of_string (Vectorizer.page_text (page :: pages)))) as H.
  { unfold Vectorizer.page_text. apply remove_char_keeps; [discriminate|].
    simpl List.map. unfold Py.join. simpl fold_right.
    rewrite !chars_app. apply List.in_or_app. left.
    apply List.in_or_app. right. left. reflexivity. }
  intros E0. rewrite E0 in H. exact H.
Qed.

Lemma holds_nul_spec s :
  holds_nul s = true <-> In "000"%char (list_ascii_of_string s).
Proof.
  unfold holds_nul. rewrite List.existsb_exists. split.
  - intros (c & Hc & Heq). apply Ascii.eqb_eq in Heq. subst c. exact Hc.
  - intros H. exists "000"%char. split; [exact H | apply Ascii.eqb_refl].
Qed.

(** A piece of a text without NUL holds no NUL. *)
Lemma piece_no_nul text c :
  holds_nul text = false ->
  (exists pre post, text = (pre ++ c ++ post)%string) ->
  holds_nul c = false.
Proof.
  intros Ht (pre & post & ->).
  destruct (holds_nul c) eqn:Ec; [|reflexivity].
  apply holds_nul_spec in Ec.
  assert (holds_nul (pre ++ c ++ post) = true) as H; [|congruence].
  apply holds_nul_spec. rewrite !chars_app.
  apply List.in_or_app. right. apply List.in_or_app. left. exact Ec.
Qed.

Lemma page_text_no_nul pages : holds_nul (Vectorizer.page_text pages) = false.
Proof.
  destruct (holds_nul (Vectorizer.page_text pages)) eqn:Hn; [|reflexivity].
  apply holds_nul_spec in Hn. exfalso.
  exact (remove_char_absent Vectorizer.nul _ Hn).
Qed.

End ExtractFacts.

(** X5. [extract_text_from_pdf] never raises and leaves the database
    alone; the text it returns holds no NUL character, and it is empty
    exactly when the reader raised or the document has no page. *)
Theorem extract_text_from_pdf_total (E : Eff.env) (pdf_path : string)
    (w : Eff.world) :
  exists text w',
    Vectorizer.extract_text_from_pdf E pdf_path w = (Eff.Return text, w')
    /\ Eff.same_store w w'
    /\ ~ In Vectorizer.nul (list_ascii_of_string text)
    /\ (text = EmptyString
        <-> (exists e, Eff.pdf_pages E pdf_path = inl e)
            \/ Eff.pdf_pages E pdf_path = inr []).
Proof.
  destruct (Eff.pdf_pages E pdf_path) as [e|pages] eqn:Ep.
  - eexists. eexists. split; [apply extract_text_unreadable; exact Ep|].
    split; [split; reflexivity|]. split; [simpl; tauto|].
    split; [eauto | reflexivity].
  - eexists. eexists. split; [apply extract_text_readable; exact Ep|].
    split; [apply same_store_refl|]. split; [apply remove_char_absent|].
    split.
    + intros H. right. destruct pages as [|page pages]; [reflexivity|].
      exfalso. exact (page_text_nonempty page pages H).
    + intros [[e He]|H]; [discriminate|]. injection H as ->. reflexivity.
Qed.

(** A text of white space gives no chunk. *)
Lemma blank_no_chunks fuel self text :
  0 <= Chunker.chunk_overlap self < Chunker.chunk_size self ->
  (String.length text <= fuel)%nat ->
  Forall (fun c => Py.isspace c = true) (list_ascii_of_string text) ->
  Chunker.chunk_text fuel self text = Some [].
Proof.
  intros Hv Hf Hblank.
  destruct (chunk_loop_ends self text Hv fuel 0 []) as [raw Hraw].
  { unfold Py.len. lia. }
  unfold Chunker.chunk_text. rewrite Hraw. f_equal. apply filter_truthy_nil.
  eapply chunk_loop_Forall; [|constructor|exact Hraw].
  intros start.
  destruct (chunk_step_piece self text start) as (u & -> & pre & post & Hu).
  apply strip_empty_iff. rewrite Hu, !chars_app in Hblank.
  apply Forall_app in Hblank as [_ Hblank].
  apply Forall_app in Hblank as [Hblank _]. exact Hblank.
Qed.

(** The chunks of a text are pieces of it, whatever the configuration. *)
Lemma chunk_text_pieces fuel self text chunks :
  Chunker.chunk_text fuel self text = Some chunks ->
  Forall (fun c => exists pre post, text = (pre ++ c ++ post)%string) chunks.
Proof.
  unfold Chunker.chunk_text.
  destruct (Chunker.chunk_loop fuel self text 0 []) as [raw|] eqn:Hraw;
    [|discriminate].
  intros H. injection H as <-.
  assert (Forall (fun c => exists pre post, text = (pre ++ c ++ post)%string)
            raw) as Hall.
  { eapply chunk_loop_Forall; [|constructor|exact Hraw].
    intros start. apply chunk_step_shape. }
  rewrite List.Forall_forall in *. intros c Hc.
  apply List.filter_In in Hc as [Hc _]. auto.
Qed.

(** The run of [process_pdf] up to the call of the model, for a document
    with text. *)
Lemma process_pdf_reaches_encode E fuel self path pages chunks w :
  Eff.pdf_pages E path = inr pages ->
  Vectorizer.page_text pages <> EmptyString ->
  Chunker.chunk_text fuel self (Vectorizer.page_text pages) = Some chunks ->
  exists w0 lines,
    Vectorizer.process_pdf E fuel self path w
    = Eff.bind (Eff.encode_all E chunks)
        (fun embeddings =>
           do* Eff.print "  Almacenando en base de datos..." in
           Vectorizer.store_chunks (Vectorizer.path_name path) chunks embeddings)
        w0
    /\ Eff.same_store w w0
    /\ Eff.trace w0 = Eff.trace w ++ List.map Eff.Print lines.
Proof.
  intros Hp Ht Hc. unfold Vectorizer.process_pdf, Eff.print.
  rewrite !bind_emit.
  erewrite bind_Return by (apply extract_text_readable; exact Hp).
  rewrite (truthy_nonempty _ Ht). cbn [negb]. rewrite !bind_emit.
  rewrite Hc. unfold Eff.run_fueled at 1.
  erewrite bind_Return by reflexivity. rewrite !bind_emit.
  unfold Vectorizer.generate_embeddings.
  eexists. eexists [_; _; _; _; _; _]. split; [reflexivity|].
  split; [split; reflexivity|].
  cbn [Eff.trace List.map]. rewrite <- !app_assoc. reflexivity.
Qed.

(** X6. A document that can be read, has a page, is chunked within the
    fuel and for whose chunks the model returns one vector each is stored,
    when the database is reachable and the file name holds no NUL, as one
    row per chunk: named after the file, in the order of the chunks, indexed
    from 0, each with the vector of its chunk. *)
Theorem process_pdf_stores (E : Eff.env) (fuel : nat) (self : Chunker.config)
    (path : string) (pages : list string) (chunks : list string)
    (vs : list Eff.vector) (w : Eff.world) :
  Eff.pdf_pages E path = inr pages ->
  pages <> [] ->
  Eff.holds_nul (Vectorizer.path_name path) = false ->
  Chunker.chunk_text fuel self (Vectorizer.page_text pages) = Some chunks ->
  Eff.encode_batch E chunks = inr vs ->
  length vs = length chunks ->
  Eff.db_up w = true ->
  exists w' added,
    Vectorizer.process_pdf E fuel self path w = (Eff.Return tt, w')
    /\ Eff.db_up w' = true
    /\ Eff.document_chunks w' = Eff.document_chunks w ++ added
    /\ length added = length chunks
    /\ forall i c v,
         chunks !! i = Some c -> vs !! i = Some v ->
         added !! i = Some (Eff.Row (Vectorizer.path_name path) c i v []).
Proof.
  intros Hp Hpages Hname Hc Henc Hlen Hup.
  assert (Vectorizer.page_text pages <> EmptyString) as Ht.
  { destruct pages as [|page pages']; [congruence | apply page_text_nonempty]. }
  destruct (process_pdf_reaches_encode E fuel self path pages chunks w Hp Ht Hc)
    as (w0 & lines & Hrun & [Hs1 Hs2] & _).
  assert (Forall (fun c => Eff.holds_nul c = false) chunks) as Hclean.
  { pose proof (chunk_text_pieces _ _ _ _ Hc) as Hpieces.
    rewrite List.Forall_forall in *. intros c Hin.
    apply (piece_no_nul (Vectorizer.page_text pages));
      [apply page_text_no_nul | apply Hpieces; exact Hin]. }
  rewrite Hrun. unfold Eff.bind at 1. rewrite encode_all_run, Henc.
  unfold Eff.print. rewrite bind_emit.
  rewrite store_chunks_up;
    [|cbn [Eff.db_up]; congruence | apply values_accepted; assumption].
  eexists. eexists. split; [reflexivity|]. split; [reflexivity|].
  cbn [Eff.document_chunks]. rewrite Hs2. split; [reflexivity|]. split.
  - rewrite values_length. lia.
  - intros i c v. apply values_lookup.
Qed.

Lemma process_pdf_stores_witness :
  exists w' added,
    Vectorizer.process_pdf Sample.E 100 Chunker.default "docs/c.pdf"
      Sample.stocked_world = (Eff.Return tt, w')
    /\ Eff.db_up w' = true
    /\ Eff.document_chunks w' = Eff.document_chunks Sample.stocked_world ++ added
    /\ length added = length ["gamma"]
    /\ forall i c v,
         ["gamma"] !! i = Some c -> [[0; 1]%Q] !! i = Some v ->
         added !! i = Some (Eff.Row (Vectorizer.path_name "docs/c.pdf") c i v []).
Proof.
  apply (process_pdf_stores Sample.E 100 Chunker.default "docs/c.pdf"
           ["gamma"] ["gamma"] [[0; 1]%Q] Sample.stocked_world).
  - reflexivity.
  - discriminate.
  - reflexivity.
  - vm_compute. reflexivity.
  - reflexivity.
  - reflexivity.
  - reflexivity.
Defined.

(** X7. A document that can be read and has a page, but whose text is
    white space only, is not reported as unreadable: with
    [0 <= overlap < size], [process_pdf] chunks it into nothing and calls
    the model once, on the empty batch. If that call raises, so does
    [process_pdf], before any connection is opened. If it returns, a
    connection is opened: [process_pdf] returns when the database is
    reachable and raises when it is not. No row is stored in any case. *)
Theorem process_pdf_blank (E : Eff.env) (fuel : nat) (self : Chunker.config)
    (path : string) (pages : list string) (w : Eff.world) :
  Eff.pdf_pages E path = inr pages ->
  pages <> [] ->
  Forall (fun c => Py.isspace c = true)
    (list_ascii_of_string (Vectorizer.page_text pages)) ->
  0 <= Chunker.chunk_overlap self < Chunker.chunk_size self ->
  (String.length (Vectorizer.page_text pages) <= fuel)%nat ->
  exists r w' events,
    Vectorizer.process_pdf E fuel self path w = (r, w')
    /\ Eff.document_chunks w' = Eff.document_chunks w
    /\ Eff.trace w' = Eff.trace w ++ events
    /\ In (Eff.EncodeBatch []) events
    /\ (In Eff.Connect events <-> exists vs, Eff.encode_batch E [] = inr vs)
    /\ r = match Eff.encode_batch E [] with
           | inl e => Eff.Raise e
           | inr _ =>
               if Eff.db_up w then Eff.Return tt
               else Eff.Raise (Eff.Exception "could not connect to server")
           end.
Proof.
  intros Hp Hpages Hblank Hv Hf.
  assert (Vectorizer.page_text pages <> EmptyString) as Ht.
  { destruct pages as [|page pages']; [congruence | apply page_text_nonempty]. }
  pose proof (blank_no_chunks fuel self _ Hv Hf Hblank) as Hc.
  destruct (process_pdf_reaches_encode E fuel self path pages [] w Hp Ht Hc)
    as (w0 & lines & Hrun & [Hs1 Hs2] & Htr).
  assert (forall ev, In ev (List.map Eff.Print lines) ->
                     ev <> Eff.Connect) as Hprints.
  { intros ev Hin. apply List.in_map_iff in Hin as (l & <- & _). discriminate. }
  rewrite Hrun. unfold Eff.bind at 1. rewrite encode_all_run.
  destruct (Eff.encode_batch E []) as [e|vs] eqn:Eb.
  - eexists. eexists. eexists. split; [reflexivity|].
    cbn [Eff.document_chunks Eff.trace]. split; [exact Hs2|].
    split; [rewrite Htr, <- app_assoc; reflexivity|].
    split; [apply List.in_or_app; right; left; reflexivity|].
    split; [|reflexivity]. split.
    + intros Hin. exfalso. apply List.in_app_or in Hin as [Hin|Hin].
      * exact (Hprints _ Hin eq_refl).
      * simpl in Hin. intuition discriminate.
    + intros [vs Hvs]. discriminate.
  - unfold Eff.print. rewrite bind_emit.
    assert (Vectorizer.values (Vectorizer.path_name path) [] vs = []) as Hval
      by reflexivity.
    destruct (Eff.db_up w) eqn:Hup.
    + rewrite store_chunks_up;
        [|cbn [Eff.db_up]; congruence | rewrite Hval; reflexivity].
      eexists. eexists. eexists. split; [reflexivity|].
      cbn [Eff.document_chunks Eff.trace]. rewrite Hval.
      split; [rewrite app_nil_r; exact Hs2|].
      split; [rewrite Htr, <- !app_assoc; reflexivity|].
      split; [apply List.in_or_app; right; left; reflexivity|].
      split; [|reflexivity]. split; [eauto|]. intros _.
      apply List.in_or_app. right. right. right. left. reflexivity.
    + rewrite store_chunks_down by (cbn [Eff.db_up]; congruence).
      eexists. eexists. eexists. split; [reflexivity|].
      cbn [Eff.document_chunks Eff.trace].
      split; [exact Hs2|].
      split; [rewrite Htr, <- !app_assoc; reflexivity|].
      split; [apply List.in_or_app; right; left; reflexivity|].
      split; [|reflexivity]. split; [eauto|]. intros _.
      apply List.in_or_app. right. right. right. left. reflexivity.
Qed.

Lemma process_pdf_blank_witness :
  exists r w' events,
    Vectorizer.process_pdf Sample2.E 10 Chunker.default "inbox/blank.pdf"
      Sample.empty_world = (r, w')
    /\ Eff.document_chunks w' = Eff.document_chunks Sample.empty_world
    /\ Eff.trace w' = Eff.trace Sample.empty_world ++ events
    /\ In (Eff.EncodeBatch []) events
    /\ (In Eff.Connect events
        <-> exists vs, Eff.encode_batch Sample2.E [] = inr vs)
    /\ r = match Eff.encode_batch Sample2.E [] with
           | inl e => Eff.Raise e
           | inr _ =>
               if Eff.db_up Sample.empty_world then Eff.Return tt
               else Eff.Raise (Eff.Exception "could not connect to server")
           end.
Proof.
  apply (process_pdf_blank Sample2.E 10 Chunker.default "inbox/blank.pdf"
           [""; " "] Sample.empty_world).
  - reflexivity.
  - discriminate.
  - vm_compute. repeat constructor.
  - simpl. lia.
  - vm_compute. lia.
Defined.

(** ** The command line *)

Lemma endswith_spec s suffix :
  Cli.endswith s suffix = true <-> exists stem, s = (stem ++ suffix)%string.
Proof.
  unfold Cli.endswith. split.
  - intros H. apply andb_prop in H as [H1 H2].
    apply String.eqb_eq in H2.
    exists (Py.take (String.length s - String.length suffix) s).
    rewrite <- H2 at 2. symmetry. apply take_drop_string.
  - intros [stem ->].
    assert (String.length (stem ++ suffix)
            = (String.length stem + String.length suffix)%nat) as Hlen.
    { rewrite <- !chars_length, chars_app, length_app. reflexivity. }
    rewrite Hlen. apply andb_true_intro. split.
    + apply Nat.leb_le. lia.
    + apply String.eqb_eq.
      replace (String.length stem + String.length suffix - String.length suffix)%nat
        with (String.length stem) by lia.
      clear Hlen. induction stem as [|a stem IH]; [destruct suffix; reflexivity|].
      rewrite append_cons. simpl. exact IH.
Qed.

(** X8. However [main] is called and however it ends, it only appends
    to the table: the rows that were stored stay in place, and the rows it
    adds have an empty metadata map. *)
Theorem main_only_appends (E : Eff.env) (isfile isdir : string -> bool)
    (fuel : nat) (argv : list string) (w : Eff.world) :
  Obs.grows_by (fun r => Eff.metadata r = [])
    w (snd (Cli.main E isfile isdir fuel argv w)).
Proof.
  assert (forall name chunks embeddings,
            Forall (fun r => Eff.metadata r = [])
              (Vectorizer.values name chunks embeddings)) as Hrows.
  { intros name chunks embeddings. apply List.Forall_forall. intros r Hr.
    apply values_In in Hr as (i & c & e & -> & _). reflexivity. }
  unfold Cli.main. apply (preserves_bind _ (grows_trans _)).
  { unfold Cli.new_vectorizer.
    apply (preserves_bind _ (grows_trans _));
      [apply (preserves_emit _ (grows_emit _)) | intros _].
    apply (preserves_bind _ (grows_trans _));
      [apply (preserves_call _ (grows_refl _)) | intros _].
    apply (preserves_ret _ (grows_refl _)). }
  intros vectorizer.
  destruct argv as [|script [|path rest]].
  - apply (preserves_bind _ (grows_trans _));
      [|intros _]; apply (preserves_print _ (grows_emit _)).
  - apply (preserves_bind _ (grows_trans _));
      [|intros _]; apply (preserves_print _ (grows_emit _)).
  - destruct (isfile path && Cli.endswith path ".pdf").
    + apply grows_process_pdf. intros. apply Hrows.
    + destruct (isdir path).
      * apply grows_process_directory. intros. apply Hrows.
      * apply (preserves_print _ (grows_emit _)).
Qed.

(** X9. [main] builds the vectorizer, and so loads the embedding model,
    before it looks at its arguments. If loading raises, [main] raises and
    prints nothing, whatever the arguments, the usage message included. If
    loading succeeds and [main] is called without a path, or with a path
    that is neither a regular file ending in [.pdf] nor a directory, it
    returns after printing: no text is encoded and the database is not
    contacted. *)
Theorem main_rejects (E : Eff.env) (isfile isdir : string -> bool)
    (fuel : nat) (argv : list string) (w : Eff.world) :
  (forall e,
     Eff.load_model E = inl e ->
     Cli.main E isfile isdir fuel argv w
     = (Eff.Raise e,
        Eff.World (Eff.db_up w) (Eff.document_chunks w)
          (Eff.trace w ++ [Eff.LoadModel])))
  /\ (Eff.load_model E = inr tt ->
      (forall script path rest,
         argv = script :: path :: rest ->
         (isfile path = false \/ ~ exists stem, path = (stem ++ ".pdf")%string)
         /\ isdir path = false) ->
      fst (Cli.main E isfile isdir fuel argv w) = Eff.Return tt
      /\ Obs.only_prints
           (Eff.World (Eff.db_up w) (Eff.document_chunks w)
              (Eff.trace w ++ [Eff.LoadModel]))
           (snd (Cli.main E isfile isdir fuel argv w))).
Proof.
  split.
  - intros e He. unfold Cli.main, Cli.new_vectorizer.
    unfold Eff.bind, Eff.emit, Eff.call. rewrite He. reflexivity.
  - intros Hload H. unfold Cli.main, Cli.new_vectorizer.
    unfold Eff.bind at 1. unfold Eff.bind at 1. unfold Eff.emit at 1.
    unfold Eff.bind at 1. unfold Eff.call at 1. rewrite Hload.
    unfold Eff.ret at 1 2. cbv beta iota. unfold Eff.print.
    destruct argv as [|script [|path rest]].
    + split; [reflexivity|]. split; [split; reflexivity|].
      eexists [_; _]. cbn. rewrite <- app_assoc. reflexivity.
    + split; [reflexivity|]. split; [split; reflexivity|].
      eexists [_; _]. cbn. rewrite <- app_assoc. reflexivity.
    + destruct (H script path rest eq_refl) as [Hfile Hdir]. rewrite Hdir.
      assert (isfile path && Cli.endswith path ".pdf" = false) as ->.
      { destruct Hfile as [->|Hsuf]; [reflexivity|].
        destruct (Cli.endswith path ".pdf") eqn:Ee;
          [|apply andb_false_r].
        exfalso. apply Hsuf. apply endswith_spec. exact Ee. }
      split; [reflexivity|]. split; [split; reflexivity|].
      eexists [_]. reflexivity.
Qed.

Lemma main_rejects_witness :
  fst (Cli.main Sample.E Sample2.isfile Sample2.isdir 100
         ["pdf_vectorizer.py"; "notes.txt"] Sample.stocked_world)
  = Eff.Return tt
  /\ Obs.only_prints
       (Eff.World (Eff.db_up Sample.stocked_world)
          (Eff.document_chunks Sample.stocked_world)
          (Eff.trace Sample.stocked_world ++ [Eff.LoadModel]))
       (snd (Cli.main Sample.E Sample2.isfile Sample2.isdir 100
               ["pdf_vectorizer.py"; "notes.txt"] Sample.stocked_world)).
Proof.
  apply (proj2 (main_rejects Sample.E Sample2.isfile Sample2.isdir 100
                  ["pdf_vectorizer.py"; "notes.txt"] Sample.stocked_world)).
  - reflexivity.
  - intros script path rest H. injection H as <- <- <-.
    split; [|reflexivity]. right. intros [stem Hstem].
    assert (Cli.endswith "notes.txt" ".pdf" = true) as Hb
      by (apply endswith_spec; exists stem; exact Hstem).
    vm_compute in Hb. discriminate.
Defined.

(** ** The server: best matches, catalog accounting, read-only runs *)

Section RankFacts.

Import Eff.

Variable E : env.
Variable q : vector.

#[local] Instance closer_total' : Total (Server.closer E q).
Proof.
  intros r1 r2. unfold Server.closer.
  destruct (Qlt_le_dec (cosine_distance E (embedding r2) q)
                       (cosine_distance E (embedding r1) q)) as [H|H].
  - right. apply Qlt_le_weak. exact H.
  - left. exact H.
Qed.

#[local] Instance closer_trans : Transitive (Server.closer E q).
Proof. intros r1 r2 r3. unfold Server.closer. apply Qle_trans. Qed.

(** The rows the statement keeps and the rows its [LIMIT] cuts off. *)
Lemma ranked_split threshold top_k table :
  exists rest,
    Permutation
      (Server.ranked E q threshold top_k table ++ rest)
      (List.filter (Server.above E q threshold) table)
    /\ (forall r r', In r (Server.ranked E q threshold top_k table) ->
                     In r' rest -> Server.closer E q r r')
    /\ ((length (Server.ranked E q threshold top_k table)
         < Z.to_nat top_k)%nat -> rest = []).
Proof.
  unfold Server.ranked.
  set (sorted := merge_sort (Server.closer E q)
                   (List.filter (Server.above E q threshold) table)).
  exists (drop (Z.to_nat top_k) sorted). split; [|split].
  - rewrite take_drop. apply merge_sort_Permutation.
  - intros r r' Hr Hr'.
    apply (StronglySorted_app_1_elem_of _ (take (Z.to_nat top_k) sorted)
             (drop (Z.to_nat top_k) sorted)).
    + rewrite take_drop. apply StronglySorted_merge_sort; apply _.
    + apply list_elem_of_In. exact Hr.
    + apply list_elem_of_In. exact Hr'.
  - intros Hlen. rewrite length_take in Hlen. apply drop_ge. lia.
Qed.

End RankFacts.

(** X10. The hits of [search_documents] are the best matches: the stored
    records above the threshold split into the records of the hits and the
    rest, no record of the rest is more similar to the query than a record
    of a hit, and the rest is empty unless [top_k] hits were returned. *)
Theorem search_documents_best_matches (E : Eff.env) (query : string)
    (qv : Eff.vector) (top_k : Z) (threshold : Q) (w : Eff.world) :
  Eff.db_up w = true -> Eff.encode E query = inr qv -> 0 <= top_k ->
  exists hits w' kept rest,
    Server.search_documents E query top_k threshold w = (Eff.Return hits, w')
    /\ hits = List.map (Server.hit_of E qv) kept
    /\ Permutation (kept ++ rest)
         (List.filter (Server.above E qv threshold) (Eff.document_chunks w))
    /\ (forall r r', In r kept -> In r' rest ->
          (Server.similarity_to E qv r' <= Server.similarity_to E qv r)%Q)
    /\ ((length hits < Z.to_nat top_k)%nat -> rest = []).
Proof.
  intros Hup Henc Hk.
  destruct (ranked_split E qv threshold top_k (Eff.document_chunks w))
    as (rest & Hperm & Hbest & Hall).
  eexists. eexists. exists (Server.ranked E qv threshold top_k (Eff.document_chunks w)), rest.
  split; [apply (search_documents_up E query qv); assumption|].
  split; [reflexivity|]. split; [exact Hperm|]. split.
  - intros r r' Hr Hr'. specialize (Hbest r r' Hr Hr').
    unfold Server.closer in Hbest. unfold Server.similarity_to. lra.
  - rewrite List.length_map. exact Hall.
Qed.

Lemma search_documents_best_matches_witness :
  exists hits w' kept rest,
    Server.search_documents Sample.E "query" 1 (3 # 10) Sample.stocked_world
    = (Eff.Return hits, w')
    /\ hits = List.map (Server.hit_of Sample.E [1; 0]%Q) kept
    /\ Permutation (kept ++ rest)
         (List.filter (Server.above Sample.E [1; 0]%Q (3 # 10))
            (Eff.document_chunks Sample.stocked_world))
    /\ (forall r r', In r kept -> In r' rest ->
          (Server.similarity_to Sample.E [1; 0]%Q r'
           <= Server.similarity_to Sample.E [1; 0]%Q r)%Q)
    /\ ((length hits < Z.to_nat 1)%nat -> rest = []).
Proof.
  apply (search_documents_best_matches Sample.E "query" [1; 0]%Q 1 (3 # 10)
           Sample.stocked_world).
  - reflexivity.
  - reflexivity.
  - lia.
Defined.

Section CatalogFacts.

Import Eff.

Lemma sum_list_with_map {A B} (f : B -> nat) (g : A -> B) (l : list A) :
  sum_list_with f (List.map g l) = sum_list_with (fun x => f (g x)) l.
Proof. induction l as [|x l IH]; simpl; [reflexivity | rewrite IH; reflexivity]. Qed.

Lemma sum_list_with_plus {A} (f g : A -> nat) (l : list A) :
  sum_list_with (fun x => f x + g x)%nat l
  = (sum_list_with f l + sum_list_with g l)%nat.
Proof. induction l as [|x l IH]; simpl; [reflexivity | rewrite IH; lia]. Qed.

Lemma sum_list_with_zero {A} (l : list A) :
  sum_list_with (fun _ => 0%nat) l = 0%nat.
Proof. induction l as [|x l IH]; simpl; [reflexivity | exact IH]. Qed.

Lemma sum_list_with_eq {A} (f g : A -> nat) (l : list A) :
  (forall x, f x = g x) -> sum_list_with f l = sum_list_with g l.
Proof.
  intros H. induction l as [|x l IH]; simpl; [reflexivity | rewrite H, IH; reflexivity].
Qed.

Lemma sum_indicator_absent (x : string) (names : list string) :
  ~ In x names ->
  sum_list_with (fun n => if String.eqb x n then 1 else 0)%nat names = 0%nat.
Proof.
  induction names as [|n names IH]; simpl; [reflexivity|]. intros H.
  destruct (String.eqb_spec x n) as [->|Hne]; [tauto|]. apply IH. tauto.
Qed.

(** Among names without repetition, a name that is there is counted
    once. *)
Lemma sum_indicator (x : string) (names : list string) :
  NoDup names -> In x names ->
  sum_list_with (fun n => if String.eqb x n then 1 else 0)%nat names = 1%nat.
Proof.
  induction 1 as [|n names Hn Hnd IH]; simpl; [tauto|]. intros Hin.
  destruct (String.eqb_spec x n) as [->|Hne].
  - rewrite sum_indicator_absent; [reflexivity|].
    rewrite <- list_elem_of_In. exact Hn.
  - destruct Hin as [Heq|Hin]; [congruence|]. rewrite IH by exact Hin. reflexivity.
Qed.

(** Counting the rows name by name counts every row once. *)
Lemma chunk_count_sum (t : list row) (names : list string) :
  NoDup names ->
  (forall r, In r t -> In (document_name r) names) ->
  sum_list_with (Server.chunk_count t) names = length t.
Proof.
  intros Hnd. induction t as [|r t IH]; intros Hin.
  - unfold Server.chunk_count. simpl. apply sum_list_with_zero.
  - assert (forall n, Server.chunk_count (r :: t) n
                      = ((if String.eqb (document_name r) n then 1 else 0)
                         + Server.chunk_count t n)%nat) as Hstep.
    { intros n. unfold Server.chunk_count. simpl.
      destruct (String.eqb (document_name r) n); reflexivity. }
    rewrite (sum_list_with_eq _ _ names Hstep).
    rewrite sum_list_with_plus.
    rewrite (sum_indicator _ _ Hnd) by (apply Hin; left; reflexivity).
    rewrite IH by (intros r' Hr'; apply Hin; right; exact Hr'). reflexivity.
Qed.

Lemma chunk_count_pos (t : list row) (r : row) :
  In r t -> (1 <= Server.chunk_count t (document_name r))%nat.
Proof.
  unfold Server.chunk_count. induction t as [|r' t IH]; simpl; [tauto|].
  intros [->|H].
  - rewrite String.eqb_refl. simpl. lia.
  - destruct (String.eqb (document_name r') (document_name r)); simpl;
      specialize (IH H); lia.
Qed.

End CatalogFacts.

(** X11. The catalog accounts for every stored record exactly once: the
    counts [list_documents] reports add up to the number of rows of the
    table, every listed document has at least one chunk, and the list is
    empty exactly when the table is. *)
Theorem list_documents_accounts (w : Eff.world) :
  Eff.db_up w = true ->
  exists docs w',
    Server.list_documents w = (Eff.Return docs, w')
    /\ sum_list_with snd docs = length (Eff.document_chunks w)
    /\ Forall (fun d => (1 <= snd d)%nat) docs
    /\ (docs = [] <-> Eff.document_chunks w = []).
Proof.
  intros Hup. eexists. eexists.
  split; [apply list_documents_up; exact Hup|].
  set (t := Eff.document_chunks w). split; [|split].
  - unfold Server.catalog_rows. rewrite sum_list_with_map. cbn [snd].
    apply chunk_count_sum.
    + rewrite merge_sort_Permutation. apply NoDup_remove_dups.
    + intros r Hr. apply list_elem_of_In. rewrite merge_sort_Permutation.
      apply elem_of_remove_dups, list_elem_of_In, List.in_map. exact Hr.
  - apply List.Forall_forall. intros [n k] Hd.
    apply catalog_rows_In in Hd as [(r & Hr & <-) ->]. cbn [snd].
    apply chunk_count_pos. exact Hr.
  - split.
    + intros Hnil. destruct t as [|r t'] eqn:Et; [reflexivity|]. exfalso.
      assert (In (Eff.document_name r,
                  Server.chunk_count (r :: t') (Eff.document_name r))
                (Server.catalog_rows (r :: t'))) as Hin.
      { apply catalog_rows_In. split; [|reflexivity].
        exists r. split; [left|]; reflexivity. }
      rewrite Hnil in Hin. exact Hin.
    + intros ->. reflexivity.
Qed.

Lemma list_documents_accounts_witness :
  exists docs w',
    Server.list_documents Sample.stocked_world = (Eff.Return docs, w')
    /\ sum_list_with snd docs
       = length (Eff.document_chunks Sample.stocked_world)
    /\ Forall (fun d => (1 <= snd d)%nat) docs
    /\ (docs = [] <-> Eff.document_chunks Sample.stocked_world = []).
Proof.
  apply (list_documents_accounts Sample.stocked_world). reflexivity.
Defined.

(** X12. The server never writes: whatever the arguments and however the
    run ends, [search_documents], [list_documents] and [call_tool] leave
    the reachability of the database and the rows of the table as they
    found them. *)
Theorem server_read_only (E : Eff.env) (query : string) (top_k : Z)
    (threshold : Q) (name : string) (arguments : gmap string Server.value)
    (w : Eff.world) :
  Eff.same_store w (snd (Server.search_documents E query top_k threshold w))
  /\ Eff.same_store w (snd (Server.list_documents w))
  /\ Eff.same_store w (snd (Server.call_tool E name arguments w)).
Proof.
  split; [|split].
  - apply (preserves_search_documents _ same_store_refl same_store_trans
             same_store_emit).
  - apply (preserves_list_documents _ same_store_refl same_store_trans
             same_store_emit).
  - apply (preserves_call_tool _ same_store_refl same_store_trans
             same_store_emit).
Qed.

(** ** The tool dispatcher: replies, defaults, advertised tools *)

Section ReplyFacts.

Import Eff.

Variable E : env.

Lemma search_documents_ends query top_k threshold w :
  fst (Server.search_documents E query top_k threshold w) <> OutOfFuel.
Proof.
  unfold Server.search_documents, connect, select, call, emit, bind, ret, raise.
  cbn [db_up document_chunks trace].
  destruct (encode E query); [discriminate|].
  destruct (db_up w); [|discriminate].
  destruct (top_k <? 0); discriminate.
Qed.

Lemma list_documents_ends w : fst (Server.list_documents w) <> OutOfFuel.
Proof.
  unfold Server.list_documents, connect, select, emit, bind, ret.
  cbn [db_up document_chunks trace].
  destruct (db_up w); discriminate.
Qed.

Lemma get0_append c s x : String.get 0 (String c s ++ x) = Some c.
Proof. reflexivity. Qed.

(** What a call of a known tool answers: one text, which does not begin
    like the answer to an unknown tool. *)
Lemma call_tool_known name arguments w :
  name = "search_documents" \/ name = "list_documents" ->
  exists t w',
    Server.call_tool E name arguments w
    = (Return [Server.mkTextContent "text" t], w')
    /\ String.get 0 t <> Some "H"%char.
Proof.
  intros [Hn|Hn]; subst name; unfold Server.call_tool.
  - replace (String.eqb "search_documents" "search_documents") with true
      by reflexivity.
    cbv zeta. destruct (negb _).
    + eexists. eexists. split; [reflexivity | discriminate].
    + unfold try_except, bind, call, ret, raise.
      destruct (Server.as_str _) as [e|q];
        [eexists; eexists; split; [reflexivity | rewrite get0_append; discriminate]|].
      destruct (Server.as_int _) as [e|k];
        [eexists; eexists; split; [reflexivity | rewrite get0_append; discriminate]|].
      destruct (Server.as_number _) as [e|t];
        [eexists; eexists; split; [reflexivity | rewrite get0_append; discriminate]|].
      pose proof (search_documents_ends q k t w) as Hends.
      destruct (Server.search_documents E q k t w) as [[hits|e|] w'];
        [| |exfalso; apply Hends; reflexivity].
      * destruct hits as [|h hits]; eexists; eexists;
          (split; [reflexivity|]); [discriminate | rewrite get0_append; discriminate].
      * eexists; eexists; split; [reflexivity | rewrite get0_append; discriminate].
  - replace (String.eqb "list_documents" "search_documents") with false
      by reflexivity.
    replace (String.eqb "list_documents" "list_documents") with true
      by reflexivity.
    unfold try_except, bind, ret.
    pose proof (list_documents_ends w) as Hends.
    destruct (Server.list_documents w) as [[docs|e|] w'];
      [| |exfalso; apply Hends; reflexivity].
    + destruct docs as [|d docs]; eexists; eexists;
        (split; [reflexivity|]); [discriminate | rewrite get0_append; discriminate].
    + eexists; eexists; split; [reflexivity | rewrite get0_append; discriminate].
Qed.

Lemma call_tool_unknown name arguments w :
  name <> "search_documents" -> name <> "list_documents" ->
  Server.call_tool E name arguments w
  = (Return [Server.mkTextContent "text" (Tools.unknown_tool name)], w).
Proof.
  intros H1 H2. unfold Server.call_tool.
  apply String.eqb_neq in H1, H2. rewrite H1, H2. reflexivity.
Qed.

End ReplyFacts.

(** X13. [call_tool] never raises: for every tool name, every arguments
    dict and every state of the database it returns a list of exactly one
    content item of type ["text"]; a failure of the model or of the
    database becomes the text of that item. *)
Theorem call_tool_total (E : Eff.env) (name : string)
    (arguments : gmap string Server.value) (w : Eff.world) :
  exists t w',
    Server.call_tool E name arguments w
    = (Eff.Return [Server.mkTextContent "text" t], w').
Proof.
  destruct (String.eqb_spec name "search_documents") as [H1|H1].
  - destruct (call_tool_known E name arguments w (or_introl H1))
      as (t & w' & H & _). eauto.
  - destruct (String.eqb_spec name "list_documents") as [H2|H2].
    + destruct (call_tool_known E name arguments w (or_intror H2))
        as (t & w' & H & _). eauto.
    + eexists. eexists. apply call_tool_unknown; assumption.
Qed.

(** X14. [call_tool] knows exactly the tools [list_tools] advertises: a
    call under an advertised name is never answered with the text for an
    unknown tool, and a call under any other name is answered with that
    text and nothing else happens. *)
Theorem call_tool_serves_advertised (E : Eff.env) (name : string)
    (arguments : gmap string Server.value) (w : Eff.world) :
  (In name (List.map Tools.name Tools.list_tools) ->
   fst (Server.call_tool E name arguments w)
   <> Eff.Return [Server.mkTextContent "text" (Tools.unknown_tool name)])
  /\ (~ In name (List.map Tools.name Tools.list_tools) ->
      Server.call_tool E name arguments w
      = (Eff.Return [Server.mkTextContent "text" (Tools.unknown_tool name)], w)).
Proof.
  split.
  - intros Hin.
    assert (name = "search_documents" \/ name = "list_documents") as Hk.
    { simpl in Hin. destruct Hin as [<-|[<-|[]]]; auto. }
    destruct (call_tool_known E name arguments w Hk) as (t & w' & H & Ht).
    rewrite H. cbn [fst]. intros Heq. injection Heq as ->.
    apply Ht. reflexivity.
  - intros Hout. apply call_tool_unknown.
    + intros ->. apply Hout. left. reflexivity.
    + intros ->. apply Hout. right. left. reflexivity.
Qed.

(** X15. The defaults [list_tools] declares are the ones [call_tool]
    applies: for every advertised tool and every argument for which its
    schema declares a default, leaving the argument out gives the same run
    as passing the declared default. *)
Theorem call_tool_schema_defaults (E : Eff.env) (tool : Tools.Tool)
    (key : string) (d : Server.value) (arguments : gmap string Server.value)
    (w : Eff.world) :
  In tool Tools.list_tools ->
  Tools.schema_default tool key = Some d ->
  arguments !! key = None ->
  Server.call_tool E (Tools.name tool) (<[key := d]> arguments) w
  = Server.call_tool E (Tools.name tool) arguments w.
Proof.
  intros Hin Hd Hkey. simpl in Hin. destruct Hin as [<-|[<-|[]]].
  - unfold Tools.schema_default in Hd.
    set (p := Tools.member "properties" _) in Hd. vm_compute in p. subst p.
    cbv beta iota in Hd. cbn [Tools.member Tools.field] in Hd.
    destruct (String.eqb_spec "query" key) as [<-|Hq];
      [vm_compute in Hd; discriminate|].
    destruct (String.eqb_spec "top_k" key) as [<-|Hk].
    + vm_compute in Hd. injection Hd as <-.
      cbn [Tools.name]. unfold Server.call_tool.
      replace (String.eqb "search_documents" "search_documents") with true
        by reflexivity.
      unfold Server.get, Server.get_or.
      rewrite lookup_insert_eq, !lookup_insert_ne by discriminate.
      rewrite Hkey. reflexivity.
    + destruct (String.eqb_spec "threshold" key) as [<-|Ht]; [|discriminate].
      vm_compute in Hd. injection Hd as <-.
      cbn [Tools.name]. unfold Server.call_tool.
      replace (String.eqb "search_documents" "search_documents") with true
        by reflexivity.
      unfold Server.get, Server.get_or.
      rewrite lookup_insert_eq, !lookup_insert_ne by discriminate.
      rewrite Hkey. reflexivity.
  - unfold Tools.schema_default in Hd.
    set (p := Tools.member "properties" _) in Hd. vm_compute in p. subst p.
    cbv beta iota in Hd. cbn [Tools.member Tools.field] in Hd. discriminate.
Qed.

Lemma call_tool_schema_defaults_witness :
  Server.call_tool Sample.E "search_documents"
    (<["top_k" := Server.VInt 5]> {["query" := Server.VStr "query"]})
    Sample.stocked_world
  = Server.call_tool Sample.E "search_documents"
      {["query" := Server.VStr "query"]} Sample.stocked_world.
Proof.
  destruct Tools.list_tools as [|tool tools] eqn:El; [discriminate|].
  injection El as Etool _.
  replace "search_documents" with (Tools.name tool)
    by (rewrite <- Etool; reflexivity).
  apply (call_tool_schema_defaults Sample.E tool "top_k" (Server.VInt 5)
           {["query" := Server.VStr "query"]} Sample.stocked_world).
  - rewrite <- Etool. left. reflexivity.
  - rewrite <- Etool. reflexivity.
  - reflexivity.
Defined.

Lemma search_documents_down (E : Eff.env) query qv top_k threshold w :
  Eff.encode E query = inr qv -> Eff.db_up w = false ->
  Server.search_documents E query top_k threshold w
  = (Eff.Raise (Eff.Exception "could not connect to server"),
     Eff.World false (Eff.document_chunks w)
       (Eff.trace w ++ [Eff.Encode query] ++ [Eff.Connect])).
Proof.
  intros Henc Hup.
  unfold Server.search_documents, Eff.connect, Eff.call, Eff.emit, Eff.bind, Eff.ret.
  cbn [Eff.db_up Eff.document_chunks Eff.trace]. rewrite Henc, Hup.
  cbn [Eff.db_up Eff.document_chunks Eff.trace].
  rewrite <- ?app_assoc. reflexivity.
Qed.

Lemma search_documents_negative (E : Eff.env) query qv top_k threshold w :
  Eff.encode E query = inr qv -> Eff.db_up w = true -> top_k < 0 ->
  fst (Server.search_documents E query top_k threshold w)
  = Eff.Raise (Eff.Exception "LIMIT must not be negative").
Proof.
  intros Henc Hup Hk.
  unfold Server.search_documents, Eff.connect, Eff.call, Eff.emit, Eff.bind,
    Eff.ret, Eff.raise.
  cbn [Eff.db_up Eff.document_chunks Eff.trace]. rewrite Henc, Hup.
  destruct (Z.ltb_spec top_k 0); [reflexivity|lia].
Qed.

Lemma above_false (E : Eff.env) q threshold r :
  Server.above E q threshold r = false
  <-> (Server.similarity_to E q r <= threshold)%Q.
Proof.
  unfold Server.above.
  destruct (Qlt_le_dec threshold (Server.similarity_to E q r)) as [H|H].
  - split; [discriminate|]. intros H'. exfalso. exact (Qlt_not_le _ _ H H').
  - tauto.
Qed.

Lemma filter_above_nil (E : Eff.env) q threshold table :
  List.filter (Server.above E q threshold) table = []
  <-> Forall (fun r => (Server.similarity_to E q r <= threshold)%Q) table.
Proof.
  induction table as [|r table IH]; simpl.
  - split; [constructor|reflexivity].
  - destruct (Server.above E q threshold r) eqn:Ea.
    + split; [discriminate|]. intros H. apply Forall_cons in H as [H _].
      apply above_false in H. congruence.
    + rewrite IH. split.
      * intros H. constructor; [apply above_false; exact Ea | exact H].
      * intros H. apply Forall_cons in H as [_ H]. exact H.
Qed.

(** The limit and the threshold under which the search statement returns
    no row. *)
Lemma ranked_nil (E : Eff.env) q threshold top_k table :
  0 <= top_k ->
  Server.ranked E q threshold top_k table = []
  <-> top_k = 0
      \/ Forall (fun r => (Server.similarity_to E q r <= threshold)%Q) table.
Proof.
  intros Hk. rewrite <- filter_above_nil.
  rewrite <- (length_zero_iff_nil (Server.ranked _ _ _ _ _)).
  rewrite ranked_length.
  rewrite <- (length_zero_iff_nil (List.filter _ _)).
  split.
  - intros H. destruct (Z.eq_dec top_k 0) as [->|Hne]; [left; reflexivity|].
    right. lia.
  - intros [->|H]; [reflexivity|]. rewrite H. apply Nat.min_0_r.
Qed.

(** X16. What the tool [search_documents] answers for a well-typed call
    whose query the model encodes. With the database unreachable it
    answers the text of the connection error, and with a negative [top_k]
    the text of the error of the statement. With the database reachable
    and [top_k] not negative, it answers that nothing relevant was found
    exactly when [top_k] is 0 or no stored record has a similarity above
    the threshold; otherwise the answer opens with the number of hits,
    which is the number of records above the threshold, cut at [top_k],
    and is at least one. So an empty result and a failure are told apart,
    and [top_k = 0] hides the records that are relevant. *)
Theorem call_tool_search_reply (E : Eff.env)
    (arguments : gmap string Server.value) (q : string) (k : Z) (t : Q)
    (qv : Eff.vector) (w : Eff.world) :
  arguments !! "query" = Some (Server.VStr q) ->
  q <> EmptyString ->
  Server.as_int (Server.get_or arguments "top_k" (Server.VInt 5)) = inr k ->
  Server.as_number
    (Server.get_or arguments "threshold" (Server.VFloat (3 # 10))) = inr t ->
  Eff.encode E q = inr qv ->
  exists reply,
    fst (Server.call_tool E "search_documents" arguments w)
    = Eff.Return [Server.mkTextContent "text" reply]
    /\ (Eff.db_up w = false ->
        reply = "Error al buscar documentos: could not connect to server")
    /\ (Eff.db_up w = true -> k < 0 ->
        reply = "Error al buscar documentos: LIMIT must not be negative")
    /\ (Eff.db_up w = true -> 0 <= k ->
        let relevant :=
          List.filter (Server.above E qv t) (Eff.document_chunks w) in
        (reply = "No se encontraron documentos relevantes para la consulta."
         <-> k = 0
             \/ Forall (fun r => (Server.similarity_to E qv r <= t)%Q)
                  (Eff.document_chunks w))
        /\ (reply <> "No se encontraron documentos relevantes para la consulta." ->
            (1 <= Nat.min (Z.to_nat k) (length relevant))%nat
            /\ exists listing,
                 reply
                 = ("Se encontraron "
                    ++ pretty (Nat.min (Z.to_nat k) (length relevant))
                    ++ " resultados relevantes:" ++ Vectorizer.nl
                    ++ Vectorizer.nl ++ listing)%string)).
Proof.
  intros Hq Hne Hk Ht Henc. unfold Server.call_tool.
  replace (String.eqb "search_documents" "search_documents") with true
    by reflexivity.
  assert (Server.get arguments "query" = Server.VStr q) as Hg
    by (unfold Server.get; rewrite Hq; reflexivity).
  cbv zeta. rewrite !Hg. cbn [Server.truthy].
  rewrite (truthy_nonempty _ Hne). cbn [negb].
  rewrite Hk, Ht. cbn [Server.as_str].
  unfold Eff.try_except, Eff.call.
  do 3 (unfold Eff.bind at 1; unfold Eff.ret at 1; cbv beta iota).
  destruct (Eff.db_up w) eqn:Hup; [destruct (Z_lt_le_dec k 0) as [Hneg|Hk0]|].
  - unfold Eff.bind.
    pose proof (search_documents_negative E q qv k t w Henc Hup Hneg) as Hs.
    destruct (Server.search_documents E q k t w) as [r w'].
    cbn [fst] in Hs. subst r. eexists. split; [reflexivity|].
    split; [discriminate|]. split; [reflexivity|]. intros _ Hk0. lia.
  - unfold Eff.bind. rewrite (search_documents_up E q qv k t w Hup Henc Hk0).
    pose proof (ranked_nil E qv t k (Eff.document_chunks w) Hk0) as Hnil.
    pose proof (ranked_length E qv t k (Eff.document_chunks w)) as Hlen.
    destruct (Server.ranked E qv t k (Eff.document_chunks w)) as [|r rows].
    + eexists. split; [reflexivity|]. split; [discriminate|].
      split; [intros _ ?; lia|]. intros _ _. cbv zeta. split.
      * split; [intros _; apply Hnil; reflexivity | reflexivity].
      * intros H. contradiction H. reflexivity.
    + eexists. split; [reflexivity|]. split; [discriminate|].
      split; [intros _ ?; lia|]. intros _ _. cbv zeta.
      cbn [List.map length] in *. rewrite List.length_map. split.
      * split.
        -- intros H. apply (f_equal (String.get 0)) in H.
           rewrite get0_append in H. discriminate.
        -- intros H. apply Hnil in H. discriminate.
      * intros _. rewrite <- Hlen. split; [lia|].
        eexists. reflexivity.
  - unfold Eff.bind. rewrite (search_documents_down E q qv k t w Henc Hup).
    eexists. split; [reflexivity|]. split; [reflexivity|].
    split; discriminate.
Qed.

Lemma call_tool_search_reply_witness :
  exists reply,
    fst (Server.call_tool Sample.E "search_documents"
           (<["top_k" := Server.VInt 0]> {["query" := Server.VStr "query"]})
           Sample.stocked_world)
    = Eff.Return [Server.mkTextContent "text" reply]
    /\ reply = "No se encontraron documentos relevantes para la consulta."
    /\ Exists (fun r => (3 # 10 < Server.similarity_to Sample.E [1; 0]%Q r)%Q)
         (Eff.document_chunks Sample.stocked_world).
Proof.
  destruct (call_tool_search_reply Sample.E
              (<["top_k" := Server.VInt 0]> {["query" := Server.VStr "query"]})
              "query" 0 (3 # 10) [1; 0]%Q Sample.stocked_world)
    as (reply & Hr & _ & _ & Hup); try reflexivity; [discriminate|].
  exists reply. split; [exact Hr|]. split.
  - apply (Hup eq_refl (Z.le_refl 0)). left. reflexivity.
  - apply Exists_cons_hd. reflexivity.
Defined.

(** X17. Storing never replaces. When [store_chunks] returns, it has
    raised the number of chunks the catalog counts for the document by the
    number of stored pairs, whatever was stored under that name before, and
    has left the count of every other document as it was; when it raises,
    every count is as before. It returns when the database is reachable
    and neither the name nor a chunk holds a NUL. *)
Theorem store_chunks_counts (name : string) (chunks : list string)
    (embeddings : list Eff.vector) (w : Eff.world) :
  exists r w',
    Vectorizer.store_chunks name chunks embeddings w = (r, w')
    /\ (forall n,
          Server.chunk_count (Eff.document_chunks w') n
          = (Server.chunk_count (Eff.document_chunks w) n
             + (if String.eqb n name
                then match r with
                     | Eff.Return _ =>
                         Nat.min (length chunks) (length embeddings)
                     | _ => 0
                     end
                else 0))%nat)
    /\ (Eff.db_up w = true ->
        Eff.holds_nul name = false ->
        Forall (fun c => Eff.holds_nul c = false) chunks ->
        r = Eff.Return tt).
Proof.
  assert (forall n : nat, (n + 0)%nat = n) as Hn0 by (intros; lia).
  destruct (store_chunks_outcome name chunks embeddings w)
    as [[Hup Hs]|[(Hup & Hbad & Hs)|(Hup & Hok & _)]].
  - rewrite Hs. eexists _, _. split; [reflexivity|]. split.
    + intros n. cbn [Eff.document_chunks].
      destruct (String.eqb n name); rewrite Hn0; reflexivity.
    + intros Hup'. congruence.
  - rewrite Hs. eexists _, _. split; [reflexivity|]. split.
    + intros n. cbn [Eff.document_chunks].
      destruct (String.eqb n name); rewrite Hn0; reflexivity.
    + intros _ Hname Hchunks.
      rewrite (values_accepted name chunks embeddings Hname Hchunks) in Hbad.
      discriminate.
  - rewrite (store_chunks_up _ _ _ _ Hup Hok).
    eexists _, _. split; [reflexivity|]. split; [|reflexivity].
    intros n. cbn [Eff.document_chunks]. rewrite chunk_count_app. f_equal.
    destruct (String.eqb_spec n name) as [->|Hne].
    + rewrite chunk_count_all by apply values_name. apply values_length.
    + apply chunk_count_none. intros r Hr.
      rewrite (values_name _ _ _ _ Hr). congruence.
Qed.

Lemma store_chunks_counts_witness :
  exists w',
    Vectorizer.store_chunks "b.pdf" ["x"] [[1; 0]%Q] Sample.stocked_world
    = (Eff.Return tt, w')
    /\ Server.chunk_count (Eff.document_chunks w') "b.pdf" = 3%nat
    /\ Server.chunk_count (Eff.document_chunks w') "a.pdf" = 1%nat.
Proof.
  destruct (store_chunks_counts "b.pdf" ["x"] [[1; 0]%Q] Sample.stocked_world)
    as (r & w' & Hs & Hcount & Hret).
  assert (r = Eff.Return tt) as ->.
  { apply Hret; [reflexivity | reflexivity |].
    constructor; [reflexivity | constructor]. }
  exists w'. split; [exact Hs|].
  split; rewrite Hcount; reflexivity.
Defined.
